(** * Cold Outreach Studio dashboard (src/App.jsx)

    A shallow embedding of the page-level state container of [App], of the
    [useBackend] fetch wrapper and of the handlers that drive them, with the
    properties of the campaign sequence editor and of the error paths. *)

From Stdlib Require Import ZArith Lia Ascii String DecimalString.
From stdpp Require Import base option list strings.

Local Open Scope Z_scope.
Set Warnings "-register-all".

(** ** JavaScript values and strings *)

(** Values that flow through the page: what [Response.json()] yields, what
    is handed to [JSON.stringify], and [undefined].  Numbers are the
    integer-valued doubles (day offsets, identifiers, status codes), each
    written as the integer it equals; objects keep their keys in insertion
    order. *)
Inductive value : Type :=
  | VUndefined
  | VNull
  | VBool (b : bool)
  | VNum (n : Z)
  | VStr (s : string)
  | VArr (elems : list value)
  | VObj (fields : list (string * value)).

(** *** Numbers

    A JavaScript number is a double.  The integers up to
    [Number.MAX_SAFE_INTEGER] in size are all doubles and are added
    exactly; beyond them a sum is rounded to the nearest double. *)

(** [Number.MAX_SAFE_INTEGER], 2^53 - 1. *)
Definition MAX_SAFE_INTEGER : Z := 9007199254740991.

(** The double nearest to the integer [z], ties to the even significand:
    the 53 leading bits are kept.  The integers met here stay below the
    overflow threshold near 2^1024. *)
Definition round_to_double (z : Z) : Z :=
  let a := Z.abs z in
  let drop := Z.log2 a - 52 in
  if drop <=? 0 then z
  else
    let unit := 2 ^ drop in
    let q := a / unit in
    let r := a mod unit in
    let half := unit / 2 in
    let q' := if r <? half then q
              else if half <? r then q + 1
              else if Z.even q then q else q + 1 in
    Z.sgn z * (q' * unit).

(** [x + y] on integer-valued doubles. *)
Definition Number_add (x y : Z) : Z := round_to_double (x + y).

(** All the decimal digits of an integer, with its sign. *)
Definition decimal (n : Z) : string := NilZero.string_of_int (Z.to_int n).

Definition count_digits (m : Z) : Z := Z.of_nat (String.length (decimal m)).

(** The multiple of 10^(n-k) just below or just above [m] that reads back
    as the double [m], the closer of the two when both do, the one with
    the even digits when they are as close. *)
Definition candidate (m n k : Z) : option Z :=
  let p := 10 ^ (n - k) in
  let lo := (m / p) * p in
  let hi := lo + p in
  match round_to_double lo =? m, round_to_double hi =? m with
  | true, true =>
      if m - lo <? hi - m then Some lo
      else if hi - m <? m - lo then Some hi
      else if Z.even (m / p) then Some lo else Some hi
  | true, false => Some lo
  | false, true => Some hi
  | false, false => None
  end.

Fixpoint shortest_from (fuel : nat) (m n k : Z) : Z :=
  match fuel with
  | O => m
  | S fuel' =>
      match candidate m n k with
      | Some d => d
      | None => shortest_from fuel' m n (k + 1)
      end
  end.

(** The integer with the fewest significant digits that reads back as the
    double [m]. *)
Definition shortest_decimal (m : Z) : Z :=
  let n := count_digits m in
  shortest_from (Z.to_nat n) m n 1.

Fixpoint drop_last_zeros (s : string) : string :=
  match s with
  | EmptyString => EmptyString
  | String c rest =>
      match drop_last_zeros rest with
      | EmptyString => if Ascii.eqb c "0" then EmptyString else String c EmptyString
      | rest' => String c rest'
      end
  end.

(** [d.ddde+x] *)
Definition exponent_form (d : Z) : string :=
  let e := decimal (count_digits d - 1) in
  match drop_last_zeros (decimal d) with
  | String c EmptyString => String c ("e+" +:+ e)
  | String c more => String c ("." +:+ more +:+ "e+" +:+ e)
  | EmptyString => "0"
  end.

Definition positive_toString (m : Z) : string :=
  if m <=? 2 ^ 53 then decimal m
  else
    let d := shortest_decimal m in
    if d <? 10 ^ 21 then decimal d else exponent_form d.

(** [Number.prototype.toString] on an integer-valued double: all its
    digits up to 2^53; above, the shortest digits that read back as the
    same double, followed by zeros below 10^21 and in exponent form from
    10^21 on. *)
Definition Number_toString (n : Z) : string :=
  if n <? 0 then "-" +:+ positive_toString (- n) else positive_toString n.

(** [Array.prototype.join] on strings. *)
Fixpoint join (sep : string) (parts : list string) : string :=
  match parts with
  | [] => ""
  | [p] => p
  | p :: rest => p +:+ sep +:+ join sep rest
  end.

(** The own property [key] of an object, if it has one. *)
Fixpoint assoc (key : string) (fields : list (string * value)) : option value :=
  match fields with
  | [] => None
  | (k, v) :: rest => if String.eqb k key then Some v else assoc key rest
  end.

(** The conversion a template literal [`${v}`] applies to [v]; [None]
    when it throws a TypeError.  An object is converted by its [toString]
    method: the inherited one prints [[object Object]]; an own [toString]
    property, never a function in a JSON value, hides it, and the
    conversion throws.  An array joins the conversions of its elements,
    [null] and [undefined] giving the empty string. *)
Fixpoint ToString (v : value) : option string :=
  match v with
  | VUndefined => Some "undefined"
  | VNull => Some "null"
  | VBool true => Some "true"
  | VBool false => Some "false"
  | VNum n => Some (Number_toString n)
  | VStr s => Some s
  | VArr elems =>
      let fix parts (l : list value) : option (list string) :=
        match l with
        | [] => Some []
        | x :: rest =>
            match match x with
                  | VUndefined | VNull => Some ""
                  | _ => ToString x
                  end, parts rest with
            | Some p, Some ps => Some (p :: ps)
            | _, _ => None
            end
        end in
      join "," <$> parts elems
  | VObj fields =>
      match assoc "toString" fields with
      | Some _ => None
      | None => Some "[object Object]"
      end
  end.

(** The message of the TypeError of a conversion that throws. *)
Definition conversion_error_message : string :=
  "Cannot convert object to primitive value".

(** [String.prototype.startsWith] and [String.prototype.includes]. *)
Fixpoint startsWith (s prefix : string) {struct prefix} : bool :=
  match prefix, s with
  | EmptyString, _ => true
  | String a p', String b s' => if Ascii.eqb a b then startsWith s' p' else false
  | String _ _, EmptyString => false
  end.

Fixpoint includes (s needle : string) : bool :=
  startsWith s needle ||
  match s with
  | EmptyString => false
  | String _ s' => includes s' needle
  end.

(** Property read [v.key].  Reading a property of [null] or [undefined]
    throws a TypeError, rendered here as [None]; on any other value a
    missing property reads as [undefined]. *)
Definition Get (v : value) (key : string) : option value :=
  match v with
  | VUndefined | VNull => None
  | VObj fields => Some (default VUndefined (assoc key fields))
  | _ => Some VUndefined
  end.

(** ** The campaign being edited *)

(** One email of the sequence.  The day offset is the number the editor
    stores ([0], a previous offset plus [2], or [Number(e.target.value)]),
    an integer-valued double. *)
Record Step : Type := mkStep {
  day_offset : Z;
  subject : string;
  body : string
}.

Record Campaign : Type := mkCampaign {
  name : string;
  workspace_id : value;
  sequence : list Step
}.

(** [useState({ name: '', workspace_id: '', sequence: [ {day_offset: 0, ...} ]})] *)
Definition campaign_initial : Campaign :=
  {| name := ""; workspace_id := VStr "";
     sequence := [ {| day_offset := 0; subject := ""; body := "" |} ] |}.

(** [Array.prototype.at]: a negative index counts from the end, an index
    outside the array reads [undefined]. *)
Definition Array_at {A} (l : list A) (i : Z) : option A :=
  let k := if i <? 0 then Z.of_nat (length l) + i else i in
  if k <? 0 then None else l !! Z.to_nat k.

(** [Array.prototype.filter] with the two-argument callback (element, index). *)
Fixpoint filter_from {A} (p : A -> Z -> bool) (i : Z) (l : list A) : list A :=
  match l with
  | [] => []
  | x :: rest =>
      if p x i then x :: filter_from p (i + 1) rest
      else filter_from p (i + 1) rest
  end.

Definition Array_filter {A} (p : A -> Z -> bool) (l : list A) : list A :=
  filter_from p 0 l.

(** [a?.day_offset ?? 0] *)
Definition last_offset_or_zero (a : option Step) : Z :=
  default 0 (day_offset <$> a).

(** The updater of [addStep]:
    [c => ({...c, sequence: [...c.sequence, { day_offset: (c.sequence.at(-1)?.day_offset ?? 0)+2, subject: '', body: '' }]})] *)
Definition addStep_updater (c : Campaign) : Campaign :=
  {| name := name c;
     workspace_id := workspace_id c;
     sequence :=
       sequence c ++
       [ {| day_offset :=
              Number_add (last_offset_or_zero (Array_at (sequence c) (-1))) 2;
            subject := ""; body := "" |} ] |}.

(** The updater of [removeStep(idx)]:
    [c => ({...c, sequence: c.sequence.filter((_,i)=>i!==idx)})] *)
Definition removeStep_updater (idx : Z) (c : Campaign) : Campaign :=
  {| name := name c;
     workspace_id := workspace_id c;
     sequence := Array_filter (fun _ i => negb (i =? idx)) (sequence c) |}.

(** ** JSON.stringify *)

Definition hex_digit (n : N) : ascii :=
  ascii_of_N (if (n <? 10)%N then 48 + n else 87 + n).

(** One code unit of QuoteJSONString: the two-character escapes, a
    [\u00xx] escape for the other control characters, the character
    itself otherwise. *)
Definition quote_char (c : ascii) : string :=
  let n := N_of_ascii c in
  if (n =? 8)%N then "\b"
  else if (n =? 9)%N then "\t"
  else if (n =? 10)%N then "\n"
  else if (n =? 12)%N then "\f"
  else if (n =? 13)%N then "\r"
  else if (n =? 34)%N then String "\" (String c "")
  else if (n =? 92)%N then "\\"
  else if (n <? 32)%N then
    "\u00" +:+ String (hex_digit (n / 16)) (String (hex_digit (n mod 16)) "")
  else String c "".

Fixpoint quote_chars (s : string) : string :=
  match s with
  | EmptyString => ""
  | String c rest => quote_char c +:+ quote_chars rest
  end.

Definition dquote : string := String "034" "".

Definition QuoteJSONString (s : string) : string :=
  dquote +:+ quote_chars s +:+ dquote.

(** [JSON.stringify(v)]: [undefined] has no rendering ([None]); inside an
    array it is written [null], inside an object its property is left
    out. *)
Fixpoint JSON_stringify (v : value) : option string :=
  match v with
  | VUndefined => None
  | VNull => Some "null"
  | VBool true => Some "true"
  | VBool false => Some "false"
  | VNum n => Some (Number_toString n)
  | VStr s => Some (QuoteJSONString s)
  | VArr elems =>
      Some ("[" +:+
            join "," (List.map (fun x => default "null" (JSON_stringify x)) elems)
            +:+ "]")
  | VObj fields =>
      let member (kv : string * value) : list string :=
        match JSON_stringify (snd kv) with
        | Some s => [QuoteJSONString (fst kv) +:+ ":" +:+ s]
        | None => []
        end in
      Some ("{" +:+ join "," (List.flat_map member fields) +:+ "}")
  end.

(** ** Page state *)

Record Workspace : Type := mkWorkspace {
  ws_name : string;
  owner_email : string
}.

Record Prospect : Type := mkProspect {
  email : string;
  first_name : string;
  last_name : string;
  company : string;
  title : string
}.

Record GenForm : Type := mkGenForm {
  product : string;
  audience : string;
  tone : string;
  call_to_action : string
}.

(** The [useState] cells of [App]. *)
Record AppState : Type := mkAppState {
  tab : string;
  status : string;
  ws : Workspace;
  prospect : Prospect;
  gen : GenForm;
  preview : value;
  loadingGen : bool;
  campaign : Campaign;
  campaigns : value;
  loadingCampaigns : bool
}.

Definition App_initial : AppState :=
  {| tab := "onboarding";
     status := "";
     ws := {| ws_name := ""; owner_email := "" |};
     prospect := {| email := ""; first_name := ""; last_name := "";
                    company := ""; title := "" |};
     gen := {| product := ""; audience := ""; tone := "friendly";
               call_to_action := "Book a quick call?" |};
     preview := VNull;
     loadingGen := false;
     campaign := campaign_initial;
     campaigns := VArr [];
     loadingCampaigns := false |}.

(** The objects the forms hand to [post], as values. *)
Definition Workspace_value (w : Workspace) : value :=
  VObj [("name", VStr (ws_name w)); ("owner_email", VStr (owner_email w))].

Definition Prospect_value (p : Prospect) : value :=
  VObj [("email", VStr (email p)); ("first_name", VStr (first_name p));
        ("last_name", VStr (last_name p)); ("company", VStr (company p));
        ("title", VStr (title p))].

Definition GenForm_value (g : GenForm) : value :=
  VObj [("product", VStr (product g)); ("audience", VStr (audience g));
        ("tone", VStr (tone g)); ("call_to_action", VStr (call_to_action g))].

Definition Step_value (s : Step) : value :=
  VObj [("day_offset", VNum (day_offset s)); ("subject", VStr (subject s));
        ("body", VStr (body s))].

Definition Campaign_value (c : Campaign) : value :=
  VObj [("name", VStr (name c)); ("workspace_id", workspace_id c);
        ("sequence", VArr (List.map Step_value (sequence c)))].

(** State setters returned by [useState]. *)
Definition with_status (s : string) (st : AppState) : AppState :=
  {| tab := tab st; status := s; ws := ws st; prospect := prospect st;
     gen := gen st; preview := preview st; loadingGen := loadingGen st;
     campaign := campaign st; campaigns := campaigns st;
     loadingCampaigns := loadingCampaigns st |}.

Definition with_preview (v : value) (st : AppState) : AppState :=
  {| tab := tab st; status := status st; ws := ws st; prospect := prospect st;
     gen := gen st; preview := v; loadingGen := loadingGen st;
     campaign := campaign st; campaigns := campaigns st;
     loadingCampaigns := loadingCampaigns st |}.

Definition with_loadingGen (b : bool) (st : AppState) : AppState :=
  {| tab := tab st; status := status st; ws := ws st; prospect := prospect st;
     gen := gen st; preview := preview st; loadingGen := b;
     campaign := campaign st; campaigns := campaigns st;
     loadingCampaigns := loadingCampaigns st |}.

Definition with_campaign (f : Campaign -> Campaign) (st : AppState) : AppState :=
  {| tab := tab st; status := status st; ws := ws st; prospect := prospect st;
     gen := gen st; preview := preview st; loadingGen := loadingGen st;
     campaign := f (campaign st); campaigns := campaigns st;
     loadingCampaigns := loadingCampaigns st |}.

Definition with_campaigns (v : value) (st : AppState) : AppState :=
  {| tab := tab st; status := status st; ws := ws st; prospect := prospect st;
     gen := gen st; preview := preview st; loadingGen := loadingGen st;
     campaign := campaign st; campaigns := v;
     loadingCampaigns := loadingCampaigns st |}.

Definition with_loadingCampaigns (b : bool) (st : AppState) : AppState :=
  {| tab := tab st; status := status st; ws := ws st; prospect := prospect st;
     gen := gen st; preview := preview st; loadingGen := loadingGen st;
     campaign := campaign st; campaigns := campaigns st;
     loadingCampaigns := b |}.

(** [c => ({...c, workspace_id: id})] *)
Definition set_workspace_id (id : value) (c : Campaign) : Campaign :=
  {| name := name c; workspace_id := id; sequence := sequence c |}.

(** ** HTTP *)

Record Request : Type := mkRequest {
  method : string;
  url : string;
  headers : list (string * string);
  req_body : option string
}.

(** What the handlers observe of a [Response]: its status, the outcome of
    [text()] ([None] when the promise rejects) and the outcome of [json()]
    (the message of the rejection, or the parsed value). *)
Record Response : Type := mkResponse {
  resp_status : Z;
  text : option string;
  json : string + value
}.

(** [Response.ok]: the status is in the range 200 to 299. *)
Definition ok (r : Response) : bool :=
  (200 <=? resp_status r) && (resp_status r <=? 299).

(** [fetch] either rejects (network failure) with an error carrying a
    message, or resolves to a response, whatever its status. *)
Inductive FetchOutcome : Type :=
  | Rejected (message : string)
  | Resolved (r : Response).

Definition Network : Type := Request -> FetchOutcome.

(** ** Handlers: state, requests sent, exceptions *)

Record World : Type := mkWorld {
  app : AppState;
  sent : list Request
}.

(** A computation that runs against the page state, logs the requests it
    sends and either throws an error (kept as its [message]) or returns. *)
Definition Exec (A : Type) : Type := World -> (string + A) * World.

Definition ret {A} (a : A) : Exec A := fun w => (inr a, w).

Definition throw {A} (message : string) : Exec A := fun w => (inl message, w).

Definition bind {A B} (m : Exec A) (k : A -> Exec B) : Exec B :=
  fun w => match m w with
           | (inl e, w') => (inl e, w')
           | (inr a, w') => k a w'
           end.

(** [try { m } catch (e) { h(e.message) }] *)
Definition try_catch {A} (m : Exec A) (h : string -> Exec A) : Exec A :=
  fun w => match m w with
           | (inl e, w') => h e w'
           | (inr a, w') => (inr a, w')
           end.

(** [try { m } finally { f }] *)
Definition try_finally {A} (m : Exec A) (f : Exec unit) : Exec A :=
  fun w => match m w with
           | (r, w') => match f w' with
                        | (inl e, w'') => (inl e, w'')
                        | (inr _, w'') => (r, w'')
                        end
           end.

Definition update (f : AppState -> AppState) : Exec unit :=
  fun w => (inr tt, {| app := f (app w); sent := sent w |}).

Definition read {A} (f : AppState -> A) : Exec A :=
  fun w => (inr (f (app w)), w).

Declare Scope exec_scope.
Delimit Scope exec_scope with exec.
Bind Scope exec_scope with Exec.
Notation "x <- m ;; k" := (bind m (fun x => k))
  (at level 100, m at next level, right associativity) : exec_scope.
Notation "m ;; k" := (bind m (fun _ => k))
  (at level 100, right associativity) : exec_scope.
Local Open Scope exec_scope.

Definition setStatus (s : string) : Exec unit := update (with_status s).
Definition setPreview (v : value) : Exec unit := update (with_preview v).
Definition setLoadingGen (b : bool) : Exec unit := update (with_loadingGen b).
Definition setCampaign (f : Campaign -> Campaign) : Exec unit := update (with_campaign f).
Definition setCampaigns (v : value) : Exec unit := update (with_campaigns v).
Definition setLoadingCampaigns (b : bool) : Exec unit := update (with_loadingCampaigns b).

Definition addStep : Exec unit := setCampaign addStep_updater.

Definition removeStep (idx : Z) : Exec unit := setCampaign (removeStep_updater idx).

(** [import.meta.env.VITE_BACKEND_URL || 'http://localhost:8000']:
    [||] takes its right operand when the left one is [undefined] or the
    empty string. *)
Definition baseUrl (VITE_BACKEND_URL : option string) : string :=
  match VITE_BACKEND_URL with
  | None | Some EmptyString => "http://localhost:8000"
  | Some configured => configured
  end.

(** The message of the TypeError thrown by a property read on [null] or
    [undefined]. *)
Definition read_error_message (v : value) (key : string) : string :=
  "Cannot read properties of "
  +:+ match v with VNull => "null" | _ => "undefined" end
  +:+ " (reading '" +:+ key +:+ "')".

(** The world once [req] has gone out. *)
Definition logged (req : Request) (w : World) : World :=
  {| app := app w; sent := sent w ++ [req] |}.

Section Backend.

Variable VITE_BACKEND_URL : option string.
Variable net : Network.

Definition fetch (req : Request) : Exec Response :=
  fun w =>
    match net req with
    | Rejected message => (inl message, logged req w)
    | Resolved r => (inr r, logged req w)
    end.

(** [r.json()] *)
Definition read_json (r : Response) : Exec value :=
  match json r with
  | inl message => throw message
  | inr v => ret v
  end.

(** [await r.text().catch(()=>'')] *)
Definition read_text_or_empty (r : Response) : Exec string :=
  ret (default "" (text r)).

(** [fetch(`${baseUrl}${path}`)] *)
Definition get_request (path : string) : Request :=
  {| method := "GET"; url := baseUrl VITE_BACKEND_URL +:+ path;
     headers := []; req_body := None |}.

(** [fetch(`${baseUrl}${path}`, { method: 'POST', headers: {...}, body: JSON.stringify(body) })] *)
Definition post_request (path : string) (payload : value) : Request :=
  {| method := "POST"; url := baseUrl VITE_BACKEND_URL +:+ path;
     headers := [("Content-Type", "application/json")];
     req_body := JSON_stringify payload |}.

(** [`GET ${path} failed: ${r.status}`] *)
Definition get_failed (path : string) (r : Response) : string :=
  "GET " +:+ path +:+ " failed: " +:+ Number_toString (resp_status r).

(** [`POST ${path} failed: ${r.status} ${msg}`] *)
Definition post_failed (path : string) (r : Response) (msg : string) : string :=
  "POST " +:+ path +:+ " failed: " +:+ Number_toString (resp_status r)
  +:+ " " +:+ msg.

Definition get (path : string) : Exec value :=
  r <- fetch (get_request path) ;;
  if negb (ok r)
  then throw (get_failed path r)
  else read_json r.

Definition post (path : string) (payload : value) : Exec value :=
  r <- fetch (post_request path payload) ;;
  if negb (ok r)
  then msg <- read_text_or_empty r ;;
       throw (post_failed path r msg)
  else read_json r.

(** [r.id] on the value a request returned. *)
Definition get_id (r : value) : Exec value :=
  match Get r "id" with
  | Some v => ret v
  | None => throw (read_error_message r "id")
  end.

(** [`${v}`] inside a template literal. *)
Definition interpolate (v : value) : Exec string :=
  match ToString v with
  | Some s => ret s
  | None => throw conversion_error_message
  end.

Definition loadCampaigns : Exec unit :=
  try_finally
    (try_catch
       (setLoadingCampaigns true ;;
        items <- get "/campaigns" ;;
        setCampaigns items)
       (fun message => setStatus message))
    (setLoadingCampaigns false).

Definition submitWorkspace : Exec unit :=
  try_catch
    (setStatus "Creating workspace..." ;;
     w <- read ws ;;
     r <- post "/workspaces" (Workspace_value w) ;;
     id <- get_id r ;;
     shown <- interpolate id ;;
     setStatus ("Workspace created: " +:+ shown) ;;
     setCampaign (set_workspace_id id))
    (fun message => setStatus message).

Definition submitProspect : Exec unit :=
  try_catch
    (setStatus "Adding prospect..." ;;
     p <- read prospect ;;
     r <- post "/prospects" (Prospect_value p) ;;
     id <- get_id r ;;
     shown <- interpolate id ;;
     setStatus ("Prospect added: " +:+ shown))
    (fun message => setStatus message).

Definition generateEmail : Exec unit :=
  try_finally
    (try_catch
       (setLoadingGen true ;;
        setStatus "Generating email..." ;;
        g <- read gen ;;
        r <- post "/generate" (GenForm_value g) ;;
        setPreview r ;;
        setStatus "Generated!")
       (fun message => setStatus message))
    (setLoadingGen false).

Definition submitCampaign : Exec unit :=
  try_catch
    (setStatus "Creating campaign..." ;;
     c <- read campaign ;;
     r <- post "/campaigns" (Campaign_value c) ;;
     id <- get_id r ;;
     shown <- interpolate id ;;
     setStatus ("Campaign created: " +:+ shown) ;;
     loadCampaigns)
    (fun message => setStatus message).

(** [{ type, properties: { page: 'dashboard' } }] *)
Definition event_payload (type : string) : value :=
  VObj [("type", VStr type);
        ("properties", VObj [("page", VStr "dashboard")])].

Definition trackEvent (type : string) : Exec unit :=
  try_catch
    (post "/events" (event_payload type) ;;
     setStatus ("Tracked " +:+ type))
    (fun message => setStatus message).

End Backend.

Arguments get_failed : simpl never.
Arguments post_failed : simpl never.
Arguments get_request : simpl never.
Arguments post_request : simpl never.

(** A handler shows the status code of every request of its own that
    resolved with a status outside 200..299: the status banner it leaves
    contains the decimal rendering of that code. *)
Definition shows_failed_status (net : Network) (h : Exec unit) : Prop :=
  forall (w : World) (reqs : list Request) (req : Request) (r : Response),
    sent (snd (h w)) = sent w ++ reqs ->
    req ∈ reqs ->
    net req = Resolved r ->
    ok r = false ->
    includes (status (app (snd (h w)))) (Number_toString (resp_status r)) = true.

(** ** Sample backends *)

Definition world0 : World := {| app := App_initial; sent := [] |}.

(** A 500 response with the plain-text body [boom]. *)
Definition response_500 : Response :=
  {| resp_status := 500; text := Some "boom";
     json := inl "Unexpected token 'b'" |}.

(** A 201 response with the JSON body [{id: "w1"}]. *)
Definition response_201 : Response :=
  {| resp_status := 201;
     text := JSON_stringify (VObj [("id", VStr "w1")]);
     json := inr (VObj [("id", VStr "w1")]) |}.

(** A 503 response with an empty body. *)
Definition response_503 : Response :=
  {| resp_status := 503; text := Some "";
     json := inl "Unexpected end of JSON input" |}.

(** Every request is answered 500. *)
Definition net_500 : Network := fun _ => Resolved response_500.

(** Every request is answered 201. *)
Definition net_201 : Network := fun _ => Resolved response_201.

(** POST requests are answered 201, GET requests 503. *)
Definition net_created_then_503 : Network :=
  fun req =>
    if String.eqb (method req) "POST"
    then Resolved response_201
    else Resolved response_503.

(** ** Editing a step in place *)

(** [{...s, day_offset: val}], [{...s, subject: val}], [{...s, body: val}] *)
Definition set_day_offset (val : Z) (s : Step) : Step :=
  {| day_offset := val; subject := subject s; body := body s |}.

Definition set_subject (val : string) (s : Step) : Step :=
  {| day_offset := day_offset s; subject := val; body := body s |}.

Definition set_body (val : string) (s : Step) : Step :=
  {| day_offset := day_offset s; subject := subject s; body := val |}.

(** The updater the three [onChange] handlers of a sequence row share:
    [c => { const seq=[...c.sequence]; seq[idx] = {...seq[idx], field: val}; return {...c, sequence: seq} }]
    where [idx] is the row's index in [campaign.sequence.map((s, idx) => ...)].
    When [idx] is a position of the sequence the entry is replaced.  When it
    is not, the assignment creates an entry holding the one field only,
    which is not a [Step]: the result is then outside the campaigns
    described here, [None]. *)
Definition edit_step (idx : nat) (f : Step -> Step) (c : Campaign) : option Campaign :=
  match sequence c !! idx with
  | Some s =>
      Some {| name := name c; workspace_id := workspace_id c;
              sequence := <[idx := f s]> (sequence c) |}
  | None => None
  end.

Definition onChange_day_offset (idx : nat) (val : Z) : Campaign -> option Campaign :=
  edit_step idx (set_day_offset val).

Definition onChange_subject (idx : nat) (val : string) : Campaign -> option Campaign :=
  edit_step idx (set_subject val).

Definition onChange_body (idx : nat) (val : string) : Campaign -> option Campaign :=
  edit_step idx (set_body val).

(** ** Day offsets in order *)

Definition offsets (c : Campaign) : list Z := List.map day_offset (sequence c).

(** Each offset is smaller than the next one. *)
Fixpoint increasing (l : list Z) : bool :=
  match l with
  | [] => true
  | x :: rest =>
      match rest with
      | [] => true
      | y :: _ => (x <? y) && increasing rest
      end
  end.

(** ** Navigation *)

(** The [tabs] of [TabNav], as (id, label). *)
Definition tabs : list (string * string) :=
  [ ("onboarding", "Onboarding"); ("generator", "AI Generator");
    ("campaigns", "Campaigns"); ("analytics", "Analytics") ].

Definition with_tab (id : string) (st : AppState) : AppState :=
  {| tab := id; status := status st; ws := ws st; prospect := prospect st;
     gen := gen st; preview := preview st; loadingGen := loadingGen st;
     campaign := campaign st; campaigns := campaigns st;
     loadingCampaigns := loadingCampaigns st |}.

(** [onClick={() => setCurrent(t.id)}] with [setCurrent={setTab}] *)
Definition setTab (id : string) : Exec unit := update (with_tab id).

(** The panels of [App], in the order of the page, each rendered under its
    guard [tab === '...']. *)
Definition panels : list string :=
  [ "onboarding"; "generator"; "campaigns"; "analytics" ].

Definition visible_panels (st : AppState) : list string :=
  List.filter (fun guard => String.eqb (tab st) guard) panels.

(** ** The campaign list *)

(** Falsy values, the ones [||] replaces by its right operand. *)
Definition falsy (v : value) : bool :=
  match v with
  | VUndefined | VNull | VBool false | VNum 0 | VStr EmptyString => true
  | _ => false
  end.

(** [v?.length]: [undefined] on [null] and [undefined]; the number of
    elements of an array, of code units of a string; the [length] property
    of an object; [undefined] on numbers and booleans. *)
Definition optional_length (v : value) : value :=
  match v with
  | VArr elems => VNum (Z.of_nat (List.length elems))
  | VStr s => VNum (Z.of_nat (String.length s))
  | VObj fields => default VUndefined (assoc "length" fields)
  | _ => VUndefined
  end.

(** [c.sequence?.length || 0], the count shown after [Steps:] for an entry
    [c] of the campaign list; [None] when reading [c.sequence] throws. *)
Definition steps_shown (c : value) : option value :=
  match Get c "sequence" with
  | Some s => let n := optional_length s in
              Some (if falsy n then VNum 0 else n)
  | None => None
  end.

(** What the list hands to React for one entry [c]: [c._id] as key, then
    [c.name], [c.workspace_id] and the step count. *)
Record Row : Type := mkRow {
  row_key : option string;
  row_name : value;
  row_workspace : value;
  row_steps : value
}.

(** [key={k}] on an element: no key for [undefined], otherwise the key
    converted to a string as element creation does, [None] when that
    conversion throws. *)
Definition element_key (k : value) : option (option string) :=
  match k with
  | VUndefined => Some None
  | _ => Some <$> ToString k
  end.

(** The callback of [campaigns.map(c => ...)]; [None] when it throws:
    a property read on a [c] that is [null] or [undefined], or a key that
    does not convert to a string. *)
Definition campaign_row (c : value) : option Row :=
  match Get c "_id", Get c "name", Get c "workspace_id", steps_shown c with
  | Some k, Some n, Some wid, Some steps =>
      match element_key k with
      | Some key =>
          Some {| row_key := key; row_name := n; row_workspace := wid;
                  row_steps := steps |}
      | None => None
      end
  | _, _, _, _ => None
  end.

(** [campaigns.map(c => ...)] in the list panel: the rows, in order, or
    [None] when evaluating it throws.  Only an array has a [map] method:
    on [null] reading a property throws, on any other value [map] is
    [undefined], or a JSON value, and calling it throws. *)
Definition campaign_rows (listed : value) : option (list Row) :=
  match listed with
  | VArr entries => mapM campaign_row entries
  | _ => None
  end.

(** ** Outcome of a request *)

(** What the wrapper makes of the answer to a request: the message it
    throws, or the value it returns. *)
Definition settle (failed : Response -> string) (o : FetchOutcome) : string + value :=
  match o with
  | Rejected message => inl message
  | Resolved r => if ok r then json r else inl (failed r)
  end.

Definition get_outcome (env : option string) (net : Network) (path : string)
  : string + value :=
  settle (get_failed path) (net (get_request env path)).

Definition post_outcome (env : option string) (net : Network) (path : string)
    (payload : value) : string + value :=
  settle (fun r => post_failed path r (default "" (text r)))
         (net (post_request env path payload)).

(** ** What a handler leaves alone *)

(** The handler lets no exception escape. *)
Definition never_throws (h : Exec unit) : Prop :=
  forall w, fst (h w) = inr tt.

(** The handler keeps the selected tab and the contents of the workspace,
    prospect and generator forms. *)
Definition keeps_forms (h : Exec unit) : Prop :=
  forall w,
    let st := app w in
    let st' := app (snd (h w)) in
    tab st' = tab st /\ ws st' = ws st /\
    prospect st' = prospect st /\ gen st' = gen st.

(** The handler keeps the campaign being edited. *)
Definition keeps_campaign (h : Exec unit) : Prop :=
  forall w, campaign (app (snd (h w))) = campaign (app w).

(** ** More sample backends *)

(** A 201 response whose [id] is an object with a [toString] key. *)
Definition response_201_object_id : Response :=
  {| resp_status := 201;
     text := JSON_stringify (VObj [("id", VObj [("toString", VNum 1)])]);
     json := inr (VObj [("id", VObj [("toString", VNum 1)])]) |}.

Definition net_201_object_id : Network :=
  fun _ => Resolved response_201_object_id.

(** A 200 response listing one campaign and a [null]. *)
Definition response_200_list_with_null : Response :=
  {| resp_status := 200;
     text := JSON_stringify (VArr [Campaign_value campaign_initial; VNull]);
     json := inr (VArr [Campaign_value campaign_initial; VNull]) |}.

Definition net_200_list_with_null : Network :=
  fun _ => Resolved response_200_list_with_null.

(** The network is down: every fetch rejects. *)
Definition net_down : Network := fun _ => Rejected "Failed to fetch".

(** A 200 response whose JSON body is the object [{}]. *)
Definition response_200_empty_object : Response :=
  {| resp_status := 200; text := Some "{}"; json := inr (VObj []) |}.

Definition net_200_empty_object : Network :=
  fun _ => Resolved response_200_empty_object.

(** A 204 response: no body, so [json()] rejects. *)
Definition response_204 : Response :=
  {| resp_status := 204; text := Some "";
     json := inl "Unexpected end of JSON input" |}.

Definition net_204 : Network := fun _ => Resolved response_204.

(** POST requests are answered 201 with [{id: "w1"}], GET requests 200
    with a list of one campaign. *)
Definition response_200_list : Response :=
  {| resp_status := 200;
     text := JSON_stringify (VArr [Campaign_value campaign_initial]);
     json := inr (VArr [Campaign_value campaign_initial]) |}.

Definition net_created_then_list : Network :=
  fun req =>
    if String.eqb (method req) "POST"
    then Resolved response_201
    else Resolved response_200_list.

(** ** Sequence editing: lemmas *)

Section SequenceFacts.

Context {A : Type}.
Implicit Types (l : list A) (i k idx : Z).

Lemma Array_at_last l : Array_at l (-1) = last l.
Proof.
  unfold Array_at. simpl.
  destruct l as [|x l'] using rev_ind.
  - reflexivity.
  - rewrite last_snoc, length_app. simpl.
    replace (Z.of_nat (length l' + 1) + -1) with (Z.of_nat (length l')) by lia.
    destruct (Z.ltb_spec (Z.of_nat (length l')) 0) as [?|_]; [lia|].
    rewrite Nat2Z.id. rewrite lookup_app_r by lia.
    by rewrite Nat.sub_diag.
Qed.

Lemma filter_from_below l k idx :
  idx < k -> filter_from (fun _ i => negb (i =? idx)) k l = l.
Proof.
  revert k. induction l as [|x l IH]; intros k Hk; simpl; [done|].
  destruct (Z.eqb_spec k idx) as [?|_]; [lia|]. simpl.
  f_equal. apply IH. lia.
Qed.

Lemma filter_from_delete l k idx :
  k <= idx ->
  filter_from (fun _ i => negb (i =? idx)) k l = delete (Z.to_nat (idx - k)) l.
Proof.
  revert k. induction l as [|x l IH]; intros k Hk; simpl; [done|].
  destruct (Z.eqb_spec k idx) as [->|Hne]; simpl.
  - rewrite Z.sub_diag. simpl. apply filter_from_below. lia.
  - replace (Z.to_nat (idx - k)) with (S (Z.to_nat (idx - (k + 1)))) by lia.
    simpl. f_equal. apply IH. lia.
Qed.

Lemma Array_filter_drop_index l idx :
  0 <= idx ->
  Array_filter (fun _ i => negb (i =? idx)) l = delete (Z.to_nat idx) l.
Proof.
  intros H. unfold Array_filter. rewrite filter_from_delete by done.
  by rewrite Z.sub_0_r.
Qed.

Lemma Array_filter_negative l idx :
  idx < 0 -> Array_filter (fun _ i => negb (i =? idx)) l = l.
Proof. intros H. by apply filter_from_below. Qed.

End SequenceFacts.

Lemma round_to_double_safe (z : Z) :
  - MAX_SAFE_INTEGER <= z <= MAX_SAFE_INTEGER -> round_to_double z = z.
Proof.
  unfold MAX_SAFE_INTEGER, round_to_double. intros Hz.
  destruct (Z.leb_spec (Z.log2 (Z.abs z) - 52) 0) as [_|Hbig]; [done|].
  exfalso. destruct (Z.eq_dec (Z.abs z) 0) as [E|E].
  - rewrite E in Hbig. simpl in Hbig. lia.
  - assert (Z.log2 (Z.abs z) < 53); [|lia].
    apply Z.log2_lt_pow2; [lia|].
    change (2 ^ 53) with 9007199254740992. lia.
Qed.

(** Inside the safe integers a sum is the integer sum. *)
Lemma Number_add_safe (x y : Z) :
  - MAX_SAFE_INTEGER <= x + y <= MAX_SAFE_INTEGER -> Number_add x y = x + y.
Proof. apply round_to_double_safe. Qed.

(** Beyond them it is not: the double after 2^53 - 1 + 2 is 2^53, and
    10^17 + 2 is 10^17 again. *)
Example Number_add_beyond_safe :
  Number_add 9007199254740991 2 = 9007199254740992 /\
  Number_add (10 ^ 17) 2 = 10 ^ 17.
Proof. split; reflexivity. Qed.

(** Printing: every digit up to 2^53, the shortest digits that read
    back above it, exponent form from 10^21. *)
Example Number_toString_examples :
  Number_toString 500 = "500" /\
  Number_toString (-5) = "-5" /\
  Number_toString (2 ^ 53) = "9007199254740992" /\
  Number_toString (10 ^ 17 + 16) = "100000000000000020" /\
  Number_toString (2 ^ 64) = "18446744073709552000" /\
  Number_toString (10 ^ 21) = "1e+21" /\
  Number_toString (2 ^ 70) = "1.1805916207174113e+21" /\
  Number_toString (2 ^ 1024 - 2 ^ 971) = "1.7976931348623157e+308".
Proof. repeat split; vm_compute; reflexivity. Qed.

(** Conversion to a string: an own [toString] key makes it throw, also
    from inside an array. *)
Example ToString_examples :
  ToString (VObj [("id", VNum 1)]) = Some "[object Object]" /\
  ToString (VObj [("toString", VNum 1)]) = None /\
  ToString (VArr [VNull; VNum 1; VArr [VStr "a"; VBool true]]) = Some ",1,a,true" /\
  ToString (VArr [VNum 1; VObj [("toString", VNull)]]) = None.
Proof. repeat split. Qed.

Lemma Campaign_eq (c c' : Campaign) :
  name c = name c' -> workspace_id c = workspace_id c' ->
  sequence c = sequence c' -> c = c'.
Proof. destruct c, c'; simpl; congruence. Qed.

Lemma delete_out_of_range {A} (l : list A) (i : nat) :
  (length l <= i)%nat -> delete i l = l.
Proof.
  revert i. induction l as [|x l IH]; intros i Hi; [done|].
  destruct i as [|i]; simpl in *; [lia|].
  f_equal. apply IH. lia.
Qed.

Lemma with_campaign_id (f : Campaign -> Campaign) (st : AppState) :
  f (campaign st) = campaign st -> with_campaign f st = st.
Proof. intros H. destruct st. unfold with_campaign. simpl in *. by rewrite H. Qed.

(** ** The sequence editor *)

(** C1 (as amended): [addStep] returns normally and appends exactly one step
    at the end of the sequence, with empty subject and body.  Its day
    offset is the sum, as JavaScript numbers, of the offset of the previous
    last step and 2: two more than that offset whenever it is an integer
    from -(2^53 - 1) to 2^53 - 3, where the sum is exact.  It is 2 when the
    sequence was empty.  Name and workspace reference are kept. *)
Theorem addStep_appends_offset_plus_two (w : World) :
  let c := campaign (app w) in
  let c' := campaign (app (snd (addStep w))) in
  fst (addStep w) = inr tt /\
  (exists s,
     sequence c' = sequence c ++ [s] /\
     subject s = "" /\ body s = "" /\
     match last (sequence c) with
     | Some prev =>
         day_offset s = Number_add (day_offset prev) 2 /\
         (- MAX_SAFE_INTEGER <= day_offset prev <= MAX_SAFE_INTEGER - 2 ->
          day_offset s = day_offset prev + 2)
     | None => day_offset s = 2
     end) /\
  name c' = name c /\ workspace_id c' = workspace_id c.
Proof.
  simpl. split; [reflexivity|]. split; [|by split].
  eexists. split; [reflexivity|]. simpl. split; [reflexivity|].
  split; [reflexivity|].
  rewrite Array_at_last.
  destruct (last (sequence (campaign (app w)))) as [prev|]; simpl.
  - split; [reflexivity|]. intros Hsafe.
    unfold last_offset_or_zero. simpl. apply Number_add_safe. lia.
  - reflexivity.
Qed.

Lemma addStep_appends_offset_plus_two_witness :
  let w := snd (addStep world0) in
  last (sequence (campaign (app w))) = Some (mkStep 2 "" "") /\
  last (sequence (campaign (app (snd (addStep w))))) = Some (mkStep 4 "" "").
Proof.
  split; [reflexivity|].
  destruct (addStep_appends_offset_plus_two (snd (addStep world0)))
    as (_ & (s & Hseq & Hsubject & Hbody & _ & Hexact) & _).
  rewrite Hseq, last_snoc.
  destruct s as [d sub bod]. simpl in *.
  rewrite Hsubject, Hbody, Hexact; [reflexivity|].
  split; apply Z.leb_le; reflexivity.
Defined.

(** C1 (as stated) fails: after the only step of the initial campaign is
    removed the sequence is empty, and the step [addStep] then appends, the
    first of the sequence, does not have day offset 0. *)
Lemma addStep_first_step_offset_not_zero :
  let w := snd (removeStep 0 {| app := App_initial; sent := [] |}) in
  sequence (campaign (app w)) = [] /\
  ~ (exists s, sequence (campaign (app (snd (addStep w)))) =
               sequence (campaign (app w)) ++ [s] /\
               day_offset s = 0).
Proof.
  simpl. split; [reflexivity|].
  intros [s [Hs Hz]]. injection Hs as <-. discriminate Hz.
Qed.

(** C8: on an empty sequence [addStep] appends a step with day offset 2,
    empty subject and empty body. *)
Theorem addStep_on_empty_sequence (w : World) :
  sequence (campaign (app w)) = [] ->
  sequence (campaign (app (snd (addStep w)))) =
    [ {| day_offset := 2; subject := ""; body := "" |} ].
Proof. simpl. intros ->. reflexivity. Qed.

Lemma addStep_on_empty_sequence_witness :
  let w := snd (removeStep 0 {| app := App_initial; sent := [] |}) in
  sequence (campaign (app (snd (addStep w)))) =
    [ {| day_offset := 2; subject := ""; body := "" |} ].
Proof. apply addStep_on_empty_sequence. reflexivity. Defined.

(** C2: for a position [idx] of the sequence, [removeStep idx] removes the
    step at that position and no other: the new sequence is the steps
    before [idx] followed by the steps after it, it is one shorter, the
    steps before [idx] keep their position and the steps after it move up
    by one. *)
Theorem removeStep_removes_exactly (w : World) (idx : Z) :
  0 <= idx < Z.of_nat (length (sequence (campaign (app w)))) ->
  let seq := sequence (campaign (app w)) in
  let seq' := sequence (campaign (app (snd (removeStep idx w)))) in
  let i := Z.to_nat idx in
  fst (removeStep idx w) = inr tt /\
  seq' = take i seq ++ drop (S i) seq /\
  S (length seq') = length seq /\
  (forall j, (j < i)%nat -> seq' !! j = seq !! j) /\
  (forall j, (i <= j)%nat -> seq' !! j = seq !! S j).
Proof.
  intros Hidx. simpl.
  rewrite Array_filter_drop_index by lia.
  split; [reflexivity|]. split; [apply delete_take_drop|].
  split; [|split].
  - rewrite length_delete.
    + destruct (sequence (campaign (app w))); simpl in *; lia.
    + apply lookup_lt_is_Some. lia.
  - intros j Hj. by apply list_lookup_delete_lt.
  - intros j Hj. by apply list_lookup_delete_ge.
Qed.

Lemma removeStep_removes_exactly_witness :
  let w := snd (addStep (snd (addStep {| app := App_initial; sent := [] |}))) in
  sequence (campaign (app w)) =
    [ mkStep 0 "" ""; mkStep 2 "" ""; mkStep 4 "" "" ] /\
  sequence (campaign (app (snd (removeStep 1 w)))) =
    [ mkStep 0 "" ""; mkStep 4 "" "" ].
Proof.
  split; [reflexivity|].
  exact (proj1 (proj2
    (removeStep_removes_exactly
       (snd (addStep (snd (addStep {| app := App_initial; sent := [] |}))))
       1 ltac:(simpl; lia)))).
Defined.

(** C9: for an index outside the sequence, negative or at least its
    length, [removeStep idx] returns normally and leaves the whole state,
    the sequence included, as it was. *)
Theorem removeStep_out_of_range (w : World) (idx : Z) :
  idx < 0 \/ Z.of_nat (length (sequence (campaign (app w)))) <= idx ->
  removeStep idx w = (inr tt, w).
Proof.
  intros Hidx.
  unfold removeStep, setCampaign, update. f_equal.
  destruct w as [st log]. simpl in *. f_equal.
  apply with_campaign_id. apply Campaign_eq; simpl; try reflexivity.
  destruct Hidx as [Hneg|Hge].
  - by apply Array_filter_negative.
  - rewrite Array_filter_drop_index by lia.
    apply delete_out_of_range. lia.
Qed.

Lemma removeStep_out_of_range_witness :
  removeStep (-1) {| app := App_initial; sent := [] |} =
    (inr tt, {| app := App_initial; sent := [] |}) /\
  removeStep 1 {| app := App_initial; sent := [] |} =
    (inr tt, {| app := App_initial; sent := [] |}).
Proof.
  split; apply removeStep_out_of_range; simpl; lia.
Defined.

(** ** Strings: lemmas *)

Lemma startsWith_app (n s : string) : startsWith (n +:+ s) n = true.
Proof. induction n as [|a n IH]; simpl; [done|]. by rewrite Ascii.eqb_refl. Qed.

Lemma includes_here (s n : string) : startsWith s n = true -> includes s n = true.
Proof. intros H. destruct s; simpl in *; by rewrite H. Qed.

Lemma includes_skip (pre s n : string) :
  includes s n = true -> includes (pre +:+ s) n = true.
Proof.
  intros H. induction pre as [|a pre IH]; simpl; [done|].
  rewrite IH. apply orb_true_r.
Qed.

Lemma includes_infix (pre n post : string) :
  includes (pre +:+ n +:+ post) n = true.
Proof. apply includes_skip, includes_here, startsWith_app. Qed.

Lemma startsWith_refl (n : string) : startsWith n n = true.
Proof. induction n as [|a n IH]; simpl; [done|]. by rewrite Ascii.eqb_refl. Qed.

Lemma includes_suffix (pre n : string) : includes (pre +:+ n) n = true.
Proof. apply includes_skip, includes_here, startsWith_refl. Qed.

Lemma get_failed_includes_status (path : string) (r : Response) :
  includes (get_failed path r) (Number_toString (resp_status r)) = true.
Proof.
  unfold get_failed. apply includes_skip, includes_skip, includes_suffix.
Qed.

Lemma post_failed_includes_status (path : string) (r : Response) (msg : string) :
  includes (post_failed path r msg) (Number_toString (resp_status r)) = true.
Proof.
  unfold post_failed. apply includes_skip, includes_skip, includes_infix.
Qed.

Lemma post_failed_includes_body (path : string) (r : Response) (msg : string) :
  includes (post_failed path r msg) msg = true.
Proof.
  unfold post_failed. do 4 apply includes_skip. apply includes_suffix.
Qed.

(** ** The fetch wrapper: lemmas *)

Section WrapperFacts.

Variable env : option string.
Variable net : Network.

(** What [get] does in full: one request goes out; a rejected fetch
    rethrows, a status outside 200..299 throws [get_failed], otherwise
    the outcome is the one of [json()]. *)
Lemma get_run (path : string) (w : World) :
  get env net path w =
    (match net (get_request env path) with
     | Rejected message => inl message
     | Resolved r => if ok r then json r else inl (get_failed path r)
     end,
     logged (get_request env path) w).
Proof.
  unfold get, bind, fetch.
  destruct (net (get_request env path)) as [m|r]; [done|].
  destruct (ok r); simpl; [|done].
  unfold read_json. by destruct (json r).
Qed.

Lemma post_run (path : string) (payload : value) (w : World) :
  post env net path payload w =
    (match net (post_request env path payload) with
     | Rejected message => inl message
     | Resolved r =>
         if ok r then json r
         else inl (post_failed path r (default "" (text r)))
     end,
     logged (post_request env path payload) w).
Proof.
  unfold post, bind, fetch.
  destruct (net (post_request env path payload)) as [m|r]; [done|].
  destruct (ok r); simpl; [|done].
  unfold read_json. by destruct (json r).
Qed.

(** The sibling of the GET path: a POST answered outside 200..299 throws
    an error whose message carries the text of the response body. *)
Lemma post_error_carries_body (path : string) (payload : value) (w : World)
    (r : Response) (txt : string) :
  net (post_request env path payload) = Resolved r ->
  ok r = false ->
  text r = Some txt ->
  exists message,
    fst (post env net path payload w) = inl message /\
    includes message txt = true.
Proof.
  intros Hnet Hok Htxt. rewrite post_run, Hnet, Hok, Htxt. simpl.
  eexists. split; [reflexivity|]. apply post_failed_includes_body.
Qed.

Lemma get_throws_outside_2xx (path : string) (w : World) (r : Response) :
  net (get_request env path) = Resolved r ->
  ok r = false ->
  fst (get env net path w) = inl (get_failed path r).
Proof. intros Hnet Hok. by rewrite get_run, Hnet, Hok. Qed.

End WrapperFacts.

Lemma ok_2xx (r : Response) : ok r = true <-> 200 <= resp_status r <= 299.
Proof. unfold ok. rewrite andb_true_iff, !Z.leb_le. tauto. Qed.

(** ** The handlers: lemmas *)

Ltac run_handler :=
  unfold loadCampaigns, submitWorkspace, submitProspect, generateEmail,
    submitCampaign, trackEvent;
  unfold try_finally, try_catch, bind, get_id, interpolate, read, ret, throw,
    setStatus, setPreview, setLoadingGen, setCampaign, setCampaigns,
    setLoadingCampaigns, update;
  simpl; rewrite ?get_run, ?post_run; simpl.

(** One leaf of a handler run: name the requests that went out, find the
    failed one among them and read its code off the banner. *)
Ltac failed_leaf :=
  simpl; rewrite <- ?app_assoc;
  let Hsent := fresh "Hsent" in
  intros Hsent; apply app_inv_head in Hsent; subst;
  repeat match goal with
  | H : _ ∈ [] |- _ => by apply elem_of_nil in H
  | H : _ ∈ _ :: _ |- _ => apply elem_of_cons in H; destruct H as [->|H]
  | H : _ ∈ _ ++ _ |- _ => apply elem_of_app in H; destruct H as [H|H]
  end;
  try congruence;
  repeat match goal with
  | H1 : ?n ?q = Resolved ?r1, H2 : ?n ?q = Resolved ?r2 |- _ =>
      assert (r1 = r2) by congruence; subst; clear H2
  end;
  try congruence;
  first [ apply get_failed_includes_status
        | apply post_failed_includes_status ].

Section HandlerFacts.

Variable env : option string.
Variable net : Network.

Lemma loadCampaigns_shows_failed_status :
  shows_failed_status net (loadCampaigns env net).
Proof.
  intros w reqs req r Hsent Hin Hnet Hok. revert Hsent. run_handler.
  destruct (net (get_request env "/campaigns")) as [m|r1] eqn:E1;
    [failed_leaf|].
  destruct (ok r1) eqn:Eok1; [|failed_leaf].
  destruct (json r1) as [m|v]; failed_leaf.
Qed.

Lemma submitWorkspace_shows_failed_status :
  shows_failed_status net (submitWorkspace env net).
Proof.
  intros w reqs req r Hsent Hin Hnet Hok. revert Hsent. run_handler.
  destruct (net (post_request env "/workspaces" _)) as [m|r1] eqn:E1;
    [failed_leaf|].
  destruct (ok r1) eqn:Eok1; [|failed_leaf].
  destruct (json r1) as [m|v]; [failed_leaf|].
  destruct (Get v "id") as [id|]; [|failed_leaf].
  simpl. destruct (ToString id); failed_leaf.
Qed.

Lemma submitProspect_shows_failed_status :
  shows_failed_status net (submitProspect env net).
Proof.
  intros w reqs req r Hsent Hin Hnet Hok. revert Hsent. run_handler.
  destruct (net (post_request env "/prospects" _)) as [m|r1] eqn:E1;
    [failed_leaf|].
  destruct (ok r1) eqn:Eok1; [|failed_leaf].
  destruct (json r1) as [m|v]; [failed_leaf|].
  destruct (Get v "id") as [id|]; [|failed_leaf].
  simpl. destruct (ToString id); failed_leaf.
Qed.

Lemma generateEmail_shows_failed_status :
  shows_failed_status net (generateEmail env net).
Proof.
  intros w reqs req r Hsent Hin Hnet Hok. revert Hsent. run_handler.
  destruct (net (post_request env "/generate" _)) as [m|r1] eqn:E1;
    [failed_leaf|].
  destruct (ok r1) eqn:Eok1; [|failed_leaf].
  destruct (json r1) as [m|v]; failed_leaf.
Qed.

(** [submitCampaign] sends a POST and, when that went through, the GET
    of [loadCampaigns]; whichever of the two failed ends the run and is
    the one reported. *)
Lemma submitCampaign_shows_failed_status :
  shows_failed_status net (submitCampaign env net).
Proof.
  intros w reqs req r Hsent Hin Hnet Hok. revert Hsent. run_handler.
  destruct (net (post_request env "/campaigns" _)) as [m|r1] eqn:E1;
    [failed_leaf|].
  destruct (ok r1) eqn:Eok1; [|failed_leaf].
  destruct (json r1) as [m|v]; [failed_leaf|].
  destruct (Get v "id") as [id|]; [|failed_leaf].
  simpl. destruct (ToString id); [|failed_leaf].
  run_handler.
  destruct (net (get_request env "/campaigns")) as [m|r2] eqn:E2;
    [failed_leaf|].
  destruct (ok r2) eqn:Eok2; [|failed_leaf].
  destruct (json r2) as [m|v2]; failed_leaf.
Qed.

Lemma trackEvent_shows_failed_status (type : string) :
  shows_failed_status net (trackEvent env net type).
Proof.
  intros w reqs req r Hsent Hin Hnet Hok. revert Hsent. run_handler.
  destruct (net (post_request env "/events" _)) as [m|r1] eqn:E1;
    [failed_leaf|].
  destruct (ok r1) eqn:Eok1; [|failed_leaf].
  destruct (json r1) as [m|v]; failed_leaf.
Qed.

End HandlerFacts.

(** ** Error reporting *)

(** C3: every handler that talks to the backend ([loadCampaigns],
    [submitWorkspace], [submitProspect], [generateEmail], [submitCampaign],
    [trackEvent]) reports a failed request: whenever a GET or POST it sent
    resolved with a status outside 200..299, the status message it leaves
    contains the decimal digits of that status code. *)
Theorem failed_request_status_in_banner (env : option string) (net : Network) :
  shows_failed_status net (loadCampaigns env net) /\
  shows_failed_status net (submitWorkspace env net) /\
  shows_failed_status net (submitProspect env net) /\
  shows_failed_status net (generateEmail env net) /\
  shows_failed_status net (submitCampaign env net) /\
  (forall type, shows_failed_status net (trackEvent env net type)).
Proof.
  repeat split.
  - apply loadCampaigns_shows_failed_status.
  - apply submitWorkspace_shows_failed_status.
  - apply submitProspect_shows_failed_status.
  - apply generateEmail_shows_failed_status.
  - apply submitCampaign_shows_failed_status.
  - apply trackEvent_shows_failed_status.
Qed.

Lemma failed_request_status_in_banner_witness :
  includes (status (app (snd (loadCampaigns None net_500 world0)))) "500" = true /\
  includes (status (app (snd (submitWorkspace None net_500 world0)))) "500" = true /\
  includes (status (app (snd (submitCampaign None net_created_then_503 world0))))
           "503" = true.
Proof.
  split; [|split].
  - apply (proj1 (failed_request_status_in_banner None net_500)
             world0 [get_request None "/campaigns"]
             (get_request None "/campaigns") response_500);
      [reflexivity | apply list_elem_of_here | reflexivity | reflexivity].
  - apply (proj1 (proj2 (failed_request_status_in_banner None net_500))
             world0
             [post_request None "/workspaces" (Workspace_value (ws App_initial))]
             (post_request None "/workspaces" (Workspace_value (ws App_initial)))
             response_500);
      [reflexivity | apply list_elem_of_here | reflexivity | reflexivity].
  - apply (proj1 (proj2 (proj2 (proj2 (proj2
             (failed_request_status_in_banner None net_created_then_503)))))
             world0
             [post_request None "/campaigns" (Campaign_value campaign_initial);
              get_request None "/campaigns"]
             (get_request None "/campaigns") response_503);
      [reflexivity | apply list_elem_of_further, list_elem_of_here
      | reflexivity | reflexivity].
Defined.

(** C5 at a failing input: a GET answered 500 with body [boom] throws, and
    the message of the error, [GET /campaigns failed: 500], does not
    contain the body text. *)
Theorem get_error_omits_response_body :
  net_500 (get_request None "/campaigns") = Resolved response_500 /\
  ok response_500 = false /\
  text response_500 = Some "boom" /\
  fst (get None net_500 "/campaigns" world0) = inl "GET /campaigns failed: 500" /\
  includes "GET /campaigns failed: 500" "boom" = false.
Proof. repeat split. Qed.

(** ** Workspace creation *)

(** C4 (as amended): when the POST to [/workspaces] is answered with a 2xx
    status and a JSON object that has an [id] field, and that [id] converts
    to a string (the template literal of the status message does not
    throw), [submitWorkspace] returns normally and the campaign's
    [workspace_id] is that identifier; the campaign's name and sequence are
    kept. *)
Theorem submitWorkspace_sets_workspace_id
    (env : option string) (net : Network) (w : World)
    (r : Response) (fields : list (string * value)) (id : value)
    (shown : string) :
  net (post_request env "/workspaces" (Workspace_value (ws (app w)))) = Resolved r ->
  ok r = true ->
  json r = inr (VObj fields) ->
  assoc "id" fields = Some id ->
  ToString id = Some shown ->
  let w' := snd (submitWorkspace env net w) in
  fst (submitWorkspace env net w) = inr tt /\
  workspace_id (campaign (app w')) = id /\
  name (campaign (app w')) = name (campaign (app w)) /\
  sequence (campaign (app w')) = sequence (campaign (app w)).
Proof.
  intros Hnet Hok Hjson Hid Hshown. run_handler.
  rewrite Hnet, Hok, Hjson. simpl. rewrite Hid. simpl.
  rewrite Hshown. simpl. done.
Qed.

Lemma submitWorkspace_sets_workspace_id_witness :
  workspace_id (campaign (app (snd (submitWorkspace None net_201 world0)))) =
    VStr "w1".
Proof.
  apply (submitWorkspace_sets_workspace_id None net_201 world0 response_201
           [("id", VStr "w1")] (VStr "w1") "w1");
    reflexivity.
Defined.

(** C4 (as stated) fails: a 201 answer whose [id] is an object with a
    [toString] key carries an [id] field, but converting it for the status
    message throws; the catch block shows the error and the campaign's
    [workspace_id] stays the empty string. *)
Lemma submitWorkspace_object_id_not_stored :
  let id := VObj [("toString", VNum 1)] in
  let w' := snd (submitWorkspace None net_201_object_id world0) in
  net_201_object_id
    (post_request None "/workspaces" (Workspace_value (ws (app world0)))) =
    Resolved response_201_object_id /\
  ok response_201_object_id = true /\
  json response_201_object_id = inr (VObj [("id", id)]) /\
  workspace_id (campaign (app w')) = VStr "" /\
  workspace_id (campaign (app w')) <> id /\
  status (app w') = "Cannot convert object to primitive value".
Proof. simpl. repeat split. discriminate. Qed.

(** ** Backend address *)

(** C6 (as amended): the base URL is the configured [VITE_BACKEND_URL] when
    that is set to a non-empty string and [http://localhost:8000] when it
    is unset or empty; the URL of every request [get] and [post] send is
    that base URL followed by the path. *)
Theorem baseUrl_configured_or_local (env : option string) :
  (forall v, env = Some v -> v <> "" -> baseUrl env = v) /\
  (env = None \/ env = Some "" -> baseUrl env = "http://localhost:8000") /\
  (forall net path w,
     sent (snd (get env net path w)) = sent w ++ [get_request env path] /\
     url (get_request env path) = baseUrl env +:+ path) /\
  (forall net path payload w,
     sent (snd (post env net path payload w)) =
       sent w ++ [post_request env path payload] /\
     url (post_request env path payload) = baseUrl env +:+ path).
Proof.
  repeat split.
  - intros v -> Hv. by destruct v.
  - by intros [->| ->].
  - by rewrite get_run.
  - by rewrite post_run.
Qed.

Lemma baseUrl_configured_or_local_witness :
  baseUrl (Some "https://api.example.com") = "https://api.example.com" /\
  baseUrl None = "http://localhost:8000".
Proof.
  split.
  - apply (proj1 (baseUrl_configured_or_local (Some "https://api.example.com")));
      [reflexivity | discriminate].
  - apply (proj1 (proj2 (baseUrl_configured_or_local None))). by left.
Defined.

(** C6 (as stated) fails: with [VITE_BACKEND_URL] set to the empty string
    the base URL is the local address, not the configured value. *)
Lemma baseUrl_empty_setting_is_not_used :
  baseUrl (Some "") = "http://localhost:8000" /\ baseUrl (Some "") <> "".
Proof. split; [reflexivity | discriminate]. Qed.

(** ** Analytics events *)

(** C7: for every event type, [trackEvent] sends exactly one request, a
    POST to the [/events] path of the backend with a JSON content type;
    the object it serialises has exactly the two fields [type], the given
    string, and [properties], an object, and the body is their JSON
    text. *)
Theorem trackEvent_posts_event
    (env : option string) (net : Network) (type : string) (w : World) :
  let member k s := QuoteJSONString k +:+ ":" +:+ s in
  exists (payload : value) (props : list (string * value)),
    sent (snd (trackEvent env net type w)) =
      sent w ++
      [ {| method := "POST";
           url := baseUrl env +:+ "/events";
           headers := [("Content-Type", "application/json")];
           req_body := JSON_stringify payload |} ] /\
    payload = VObj [("type", VStr type); ("properties", VObj props)] /\
    JSON_stringify payload =
      Some ("{" +:+
            (member "type" (QuoteJSONString type) +:+ "," +:+
             member "properties"
               ("{" +:+ member "page" (QuoteJSONString "dashboard") +:+ "}"))
            +:+ "}").
Proof.
  exists (event_payload type), [("page", VStr "dashboard")].
  split; [|split; reflexivity].
  run_handler.
  by destruct (net (post_request env "/events" (event_payload type)))
    as [m|r]; [|destruct (ok r); [destruct (json r)|]].
Qed.

(** ** Email generation *)

Lemma with_loadingGen_idle (s : string) (st : AppState) :
  loadingGen st = false -> with_loadingGen false (with_status s st) = with_status s st.
Proof. intros H. destruct st. simpl in H. subst. reflexivity. Qed.

(** C10: when the POST to [/generate] throws (rejected fetch, status
    outside 200..299 or unreadable JSON), [generateEmail] leaves the
    preview as it was: the state it ends in is the one it started from
    with the status message set to the error's message and the loading
    flag back to false, which for a state not already loading means that
    only the status message changed. *)
Theorem generateEmail_failure_keeps_preview
    (env : option string) (net : Network) (w : World) (message : string) :
  fst (post env net "/generate" (GenForm_value (gen (app w))) w) = inl message ->
  let w' := snd (generateEmail env net w) in
  fst (generateEmail env net w) = inr tt /\
  preview (app w') = preview (app w) /\
  app w' = with_loadingGen false (with_status message (app w)) /\
  (loadingGen (app w) = false -> app w' = with_status message (app w)).
Proof.
  rewrite post_run. simpl. intros Hthrow.
  assert (Hrun : generateEmail env net w =
                 (inr tt,
                  {| app := with_loadingGen false (with_status message (app w));
                     sent := sent w ++
                       [post_request env "/generate" (GenForm_value (gen (app w)))] |})).
  { run_handler.
    destruct (net (post_request env "/generate" _)) as [m|r]; simpl in *.
    - by injection Hthrow as ->.
    - destruct (ok r); simpl in *.
      + destruct (json r); [|discriminate]. by injection Hthrow as ->.
      + by injection Hthrow as ->. }
  rewrite Hrun. simpl. repeat split.
  intros Hidle. by apply with_loadingGen_idle.
Qed.

Lemma generateEmail_failure_keeps_preview_witness :
  preview (app (snd (generateEmail None net_500 world0))) = VNull /\
  app (snd (generateEmail None net_500 world0)) =
    with_status "POST /generate failed: 500 boom" App_initial.
Proof.
  split.
  - apply (proj1 (proj2 (generateEmail_failure_keeps_preview None net_500 world0
                           "POST /generate failed: 500 boom" eq_refl))).
  - apply (proj2 (proj2 (proj2 (generateEmail_failure_keeps_preview None net_500
                           world0 "POST /generate failed: 500 boom" eq_refl)))).
    reflexivity.
Defined.

(** * Further properties *)

(** ** The sequence editor, continued *)

Lemma increasing_cons (x : Z) (l : list Z) :
  increasing (x :: l) = true <->
  (forall y, head l = Some y -> x < y) /\ increasing l = true.
Proof.
  destruct l as [|y l]; simpl.
  - split; [|done]. intros _. split; [|done]. by intros y [=].
  - rewrite andb_true_iff, Z.ltb_lt. split.
    + intros [Hxy Hl]. split; [|done]. by intros ? [= <-].
    + intros [Hh Hl]. split; [|done]. by apply Hh.
Qed.

Lemma increasing_below (x : Z) (l : list Z) :
  increasing (x :: l) = true -> Forall (fun y => x < y) l.
Proof.
  revert x. induction l as [|y l IH]; intros x H; [constructor|].
  apply increasing_cons in H as [Hh Hl].
  pose proof (Hh y eq_refl) as Hxy.
  constructor; [done|].
  eapply Forall_impl; [by apply IH|]. simpl. lia.
Qed.

Lemma increasing_snoc (l : list Z) (y : Z) :
  increasing l = true ->
  (forall x, last l = Some x -> x < y) ->
  increasing (l ++ [y]) = true.
Proof.
  induction l as [|x l IH]; intros Hl Hy; [done|].
  apply increasing_cons in Hl as [Hh Hl].
  change ((x :: l) ++ [y]) with (x :: (l ++ [y])).
  apply increasing_cons. split.
  - destruct l as [|z l]; simpl.
    + intros ? [= <-]. by apply Hy.
    + intros ? [= <-]. by apply Hh.
  - apply IH; [done|]. intros z Hz. apply Hy.
    destruct l; [done|]. by rewrite last_cons, Hz.
Qed.

Lemma increasing_delete (l : list Z) (i : nat) :
  increasing l = true -> increasing (delete i l) = true.
Proof.
  revert i. induction l as [|x l IH]; intros i Hl; [done|].
  pose proof (increasing_below _ _ Hl) as Hbelow.
  apply increasing_cons in Hl as [Hh Hl].
  destruct i as [|i]; simpl; [done|].
  apply increasing_cons. split; [|by apply IH].
  intros y Hy. apply head_Some_elem_of in Hy.
  apply list_elem_of_delete_inv in Hy.
  by apply (proj1 (Forall_forall _ _) Hbelow).
Qed.

Lemma last_fmap_day_offset (l : list Step) :
  last (List.map day_offset l) = day_offset <$> last l.
Proof.
  induction l as [|s l IH]; [done|].
  destruct l; [done|]. simpl in *. by rewrite IH.
Qed.

Lemma removeStep_updater_delete (idx : Z) (c : Campaign) :
  sequence (removeStep_updater idx c) = sequence c \/
  exists i, sequence (removeStep_updater idx c) = delete i (sequence c).
Proof.
  simpl. destruct (Z.lt_ge_cases idx 0) as [Hneg|Hpos].
  - left. by apply Array_filter_negative.
  - right. exists (Z.to_nat idx). by apply Array_filter_drop_index.
Qed.

(** X1: removing the step that [addStep] has just appended (the one at the
    old length) gives back the state from before the two clicks. *)
Theorem addStep_then_removeStep_last (w : World) :
  (addStep ;; removeStep (Z.of_nat (length (sequence (campaign (app w)))))) w
  = (inr tt, w).
Proof.
  unfold bind, addStep, removeStep, setCampaign, update. simpl.
  destruct w as [st log]. simpl. do 2 f_equal.
  destruct st as [? ? ? ? ? ? ? c ? ?]. unfold with_campaign. simpl. f_equal.
  apply Campaign_eq; simpl; try reflexivity.
  rewrite Array_filter_drop_index by lia. rewrite Nat2Z.id.
  rewrite delete_middle. apply app_nil_r.
Qed.

(** X2: [n] clicks on Add step append [n] blank steps whose day offsets go
    up in twos from the offset of the last step present (from 0 when there
    was none), as long as these offsets stay inside the safe integers, from
    -(2^53 - 1) to 2^53 - 1; nothing already in the sequence is changed. *)
Theorem addStep_iterated_offsets (n : nat) (c : Campaign) :
  let base := last_offset_or_zero (last (sequence c)) in
  - MAX_SAFE_INTEGER <= base ->
  base + 2 * Z.of_nat n <= MAX_SAFE_INTEGER ->
  sequence (Nat.iter n addStep_updater c) =
    sequence c ++
    List.map (fun i => mkStep (base + 2 * (Z.of_nat i + 1)) "" "") (seq 0 n).
Proof.
  simpl. intros Hlow. induction n as [|n IH]; intros Hhigh.
  - simpl. by rewrite app_nil_r.
  - rewrite seq_S, List.map_app, app_assoc. simpl Nat.iter.
    unfold addStep_updater at 1. simpl sequence.
    rewrite Array_at_last, IH by lia. f_equal. simpl. f_equal.
    set (base := last_offset_or_zero (last (sequence c))) in *.
    destruct n as [|n].
    + simpl. rewrite app_nil_r. fold base.
      rewrite Number_add_safe by lia. f_equal; lia.
    + rewrite seq_S, List.map_app, app_assoc. simpl.
      rewrite last_snoc. unfold last_offset_or_zero at 1. simpl.
      rewrite Number_add_safe by lia. f_equal; lia.
Qed.

Lemma addStep_iterated_offsets_witness :
  sequence (Nat.iter 3 addStep_updater campaign_initial) =
    [ mkStep 0 "" ""; mkStep 2 "" ""; mkStep 4 "" ""; mkStep 6 "" "" ].
Proof.
  rewrite (addStep_iterated_offsets 3 campaign_initial);
    [reflexivity | apply Z.leb_le; reflexivity | apply Z.leb_le; reflexivity].
Defined.

(** X3: the two sequence buttons keep day offsets in order: when each
    offset is smaller than the next, this still holds after
    [removeStep idx] for any [idx], and after [addStep] when the last
    offset is inside the safe integers with room for 2 more (from
    -(2^53 - 1) to 2^53 - 3). *)
Theorem sequence_buttons_keep_offsets_increasing (c : Campaign) :
  increasing (offsets c) = true ->
  ((forall prev, last (sequence c) = Some prev ->
      - MAX_SAFE_INTEGER <= day_offset prev <= MAX_SAFE_INTEGER - 2) ->
   increasing (offsets (addStep_updater c)) = true) /\
  (forall idx, increasing (offsets (removeStep_updater idx c)) = true).
Proof.
  intros Hinc. split.
  - intros Hsafe. unfold offsets. simpl. rewrite List.map_app. simpl.
    apply increasing_snoc; [done|].
    intros x Hx. rewrite Array_at_last.
    rewrite last_fmap_day_offset in Hx.
    destruct (last (sequence c)) as [prev|]; simpl in *; [|done].
    injection Hx as <-. unfold last_offset_or_zero. simpl.
    specialize (Hsafe prev eq_refl).
    rewrite Number_add_safe by lia. lia.
  - intros idx. unfold offsets.
    destruct (removeStep_updater_delete idx c) as [->|[i ->]]; [done|].
    replace (List.map day_offset (delete i (sequence c)))
      with (delete i (List.map day_offset (sequence c))).
    + by apply increasing_delete.
    + generalize (sequence c). clear. intros l. revert i.
      induction l as [|s l IH]; intros [|i]; simpl; try done.
      by rewrite IH.
Qed.

Lemma sequence_buttons_keep_offsets_increasing_witness :
  increasing (offsets (addStep_updater (addStep_updater campaign_initial))) = true /\
  increasing (offsets (removeStep_updater 0 (addStep_updater campaign_initial))) = true.
Proof.
  split.
  - apply (proj1 (sequence_buttons_keep_offsets_increasing
                    (addStep_updater campaign_initial) eq_refl)).
    intros prev [= <-]. split; apply Z.leb_le; reflexivity.
  - apply (proj2 (sequence_buttons_keep_offsets_increasing
                    (addStep_updater campaign_initial) eq_refl)).
Defined.

(** X4: editing a field of row [idx] (day offset, subject or body), for a
    row of the sequence, replaces that step by its edited copy and nothing
    else: the sequence keeps its length, every other step, the name and the
    workspace reference stay, and the two fields not edited are kept. *)
Theorem edit_step_changes_one_step
    (idx : nat) (f : Step -> Step) (c : Campaign) (s : Step) :
  sequence c !! idx = Some s ->
  exists c',
    edit_step idx f c = Some c' /\
    length (sequence c') = length (sequence c) /\
    sequence c' !! idx = Some (f s) /\
    (forall j, j <> idx -> sequence c' !! j = sequence c !! j) /\
    name c' = name c /\ workspace_id c' = workspace_id c /\
    (forall v, subject (set_day_offset v s) = subject s /\
               body (set_day_offset v s) = body s /\
               day_offset (set_day_offset v s) = v) /\
    (forall v, day_offset (set_subject v s) = day_offset s /\
               body (set_subject v s) = body s /\
               subject (set_subject v s) = v) /\
    (forall v, day_offset (set_body v s) = day_offset s /\
               subject (set_body v s) = subject s /\
               body (set_body v s) = v).
Proof.
  intros Hs. unfold edit_step. rewrite Hs. eexists. split; [reflexivity|].
  simpl. split; [apply length_insert|].
  split; [apply list_lookup_insert_eq; by eapply lookup_lt_Some|].
  split; [intros j Hj; by apply list_lookup_insert_ne|].
  repeat split.
Qed.

Lemma edit_step_changes_one_step_witness :
  exists c',
    onChange_day_offset 1 7 (addStep_updater campaign_initial) = Some c' /\
    sequence c' !! 1%nat = Some (mkStep 7 "" "") /\
    sequence c' !! 0%nat = Some (mkStep 0 "" "").
Proof.
  destruct (edit_step_changes_one_step 1 (set_day_offset 7)
              (addStep_updater campaign_initial) (mkStep 2 "" "") eq_refl)
    as (c' & Hc' & _ & Hat & Hother & _).
  exists c'. split; [exact Hc'|]. split; [exact Hat|].
  rewrite (Hother 0%nat); [reflexivity | discriminate].
Defined.

(** X5: [addStep] reads the offset the last row holds at that moment: once
    the last row's day offset has been edited to an integer [v] from
    -(2^53 - 1) to 2^53 - 3, the step appended next has day offset
    [v + 2]. *)
Theorem addStep_after_editing_last_offset (c : Campaign) (v : Z) (n : nat) :
  length (sequence c) = S n ->
  - MAX_SAFE_INTEGER <= v <= MAX_SAFE_INTEGER - 2 ->
  exists c',
    onChange_day_offset n v c = Some c' /\
    last (sequence (addStep_updater c')) = Some (mkStep (v + 2) "" "").
Proof.
  intros Hlen Hsafe.
  destruct (lookup_lt_is_Some_2 (sequence c) n) as [s Hs]; [lia|].
  unfold onChange_day_offset, edit_step. rewrite Hs.
  eexists. split; [reflexivity|].
  simpl. rewrite last_snoc, Array_at_last. do 2 f_equal.
  rewrite last_lookup, length_insert, Hlen. simpl.
  rewrite list_lookup_insert_eq by lia.
  unfold last_offset_or_zero. simpl. apply Number_add_safe. lia.
Qed.

Lemma addStep_after_editing_last_offset_witness :
  exists c',
    onChange_day_offset 0 10 campaign_initial = Some c' /\
    last (sequence (addStep_updater c')) = Some (mkStep 12 "" "").
Proof.
  apply (addStep_after_editing_last_offset campaign_initial 10 0);
    [reflexivity | split; apply Z.leb_le; reflexivity].
Defined.

(** ** The handlers as functions of the request outcome *)

Ltac outcome_cases :=
  unfold get_outcome, post_outcome, settle;
  repeat match goal with
  | |- context [match ?o with Rejected _ => _ | Resolved _ => _ end] =>
      destruct o as [?|?]
  | |- context [if ok ?r then _ else _] => destruct (ok r)
  | |- context [match json ?r with inl _ => _ | inr _ => _ end] =>
      destruct (json r)
  | |- context [match Get ?v ?k with Some _ => _ | None => _ end] =>
      destruct (Get v k)
  | |- context [match ToString ?v with Some _ => _ | None => _ end] =>
      destruct (ToString v)
  end;
  simpl; try reflexivity.

Section HandlerRuns.

Variable env : option string.
Variable net : Network.

Lemma get_settles (path : string) (w : World) :
  get env net path w =
    (get_outcome env net path, logged (get_request env path) w).
Proof. rewrite get_run. outcome_cases. Qed.

Lemma post_settles (path : string) (payload : value) (w : World) :
  post env net path payload w =
    (post_outcome env net path payload,
     logged (post_request env path payload) w).
Proof. rewrite post_run. outcome_cases. Qed.

Lemma loadCampaigns_runs (w : World) :
  loadCampaigns env net w =
    (inr tt,
     {| app :=
          with_loadingCampaigns false
            (match get_outcome env net "/campaigns" with
             | inr items => with_campaigns items
             | inl message => with_status message
             end (with_loadingCampaigns true (app w)));
        sent := sent w ++ [get_request env "/campaigns"] |}).
Proof. run_handler. outcome_cases. Qed.

Lemma submitWorkspace_runs (w : World) :
  let st1 := with_status "Creating workspace..." (app w) in
  submitWorkspace env net w =
    (inr tt,
     {| app :=
          match post_outcome env net "/workspaces" (Workspace_value (ws (app w))) with
          | inl message => with_status message st1
          | inr r =>
              match Get r "id" with
              | Some id =>
                  match ToString id with
                  | Some shown =>
                      with_campaign (set_workspace_id id)
                        (with_status ("Workspace created: " +:+ shown) st1)
                  | None => with_status conversion_error_message st1
                  end
              | None => with_status (read_error_message r "id") st1
              end
          end;
        sent := sent w ++
                [post_request env "/workspaces" (Workspace_value (ws (app w)))] |}).
Proof. run_handler. outcome_cases. Qed.

Lemma submitProspect_runs (w : World) :
  let st1 := with_status "Adding prospect..." (app w) in
  submitProspect env net w =
    (inr tt,
     {| app :=
          match post_outcome env net "/prospects" (Prospect_value (prospect (app w))) with
          | inl message => with_status message st1
          | inr r =>
              match Get r "id" with
              | Some id =>
                  match ToString id with
                  | Some shown => with_status ("Prospect added: " +:+ shown) st1
                  | None => with_status conversion_error_message st1
                  end
              | None => with_status (read_error_message r "id") st1
              end
          end;
        sent := sent w ++
                [post_request env "/prospects" (Prospect_value (prospect (app w)))] |}).
Proof. run_handler. outcome_cases. Qed.

Lemma generateEmail_runs (w : World) :
  let st1 := with_status "Generating email..." (with_loadingGen true (app w)) in
  generateEmail env net w =
    (inr tt,
     {| app :=
          with_loadingGen false
            (match post_outcome env net "/generate" (GenForm_value (gen (app w))) with
             | inl message => with_status message st1
             | inr r => with_status "Generated!" (with_preview r st1)
             end);
        sent := sent w ++
                [post_request env "/generate" (GenForm_value (gen (app w)))] |}).
Proof. run_handler. outcome_cases. Qed.

Lemma trackEvent_runs (type : string) (w : World) :
  trackEvent env net type w =
    (inr tt,
     {| app :=
          match post_outcome env net "/events" (event_payload type) with
          | inl message => with_status message (app w)
          | inr _ => with_status ("Tracked " +:+ type) (app w)
          end;
        sent := sent w ++ [post_request env "/events" (event_payload type)] |}).
Proof. run_handler. outcome_cases. Qed.

Lemma submitCampaign_runs (w : World) :
  let st1 := with_status "Creating campaign..." (app w) in
  let req := post_request env "/campaigns" (Campaign_value (campaign (app w))) in
  submitCampaign env net w =
    (inr tt,
     match post_outcome env net "/campaigns" (Campaign_value (campaign (app w))) with
     | inl message =>
         {| app := with_status message st1; sent := sent w ++ [req] |}
     | inr r =>
         match Get r "id" with
         | Some id =>
             match ToString id with
             | Some shown =>
                 snd (loadCampaigns env net
                        {| app := with_status ("Campaign created: " +:+ shown) st1;
                           sent := sent w ++ [req] |})
             | None =>
                 {| app := with_status conversion_error_message st1;
                    sent := sent w ++ [req] |}
             end
         | None =>
             {| app := with_status (read_error_message r "id") st1;
                sent := sent w ++ [req] |}
         end
     end).
Proof.
  intros st1 req. remember (loadCampaigns env net) as reload eqn:Hreload.
  run_handler. outcome_cases.
  all: subst reload st1 req; by rewrite !loadCampaigns_runs.
Qed.

End HandlerRuns.

Ltac frame_cases :=
  repeat match goal with
  | |- context [match ?o with inl _ => _ | inr _ => _ end] => destruct o
  | |- context [match ?o with Some _ => _ | None => _ end] => destruct o
  end;
  simpl; auto.

(** ** The fetch wrapper, continued *)

(** X6: on an answer with a status in 200..299 both [get] and [post] give
    exactly the outcome of [json()]: the parsed value, or, when the body
    does not parse, an error with the parser's message.  One request has
    gone out and the page state is untouched. *)
Theorem wrapper_2xx_yields_json
    (env : option string) (net : Network) (path : string) (payload : value)
    (w : World) (r : Response) :
  ok r = true ->
  (net (get_request env path) = Resolved r ->
   get env net path w =
     (json r, {| app := app w; sent := sent w ++ [get_request env path] |})) /\
  (net (post_request env path payload) = Resolved r ->
   post env net path payload w =
     (json r, {| app := app w;
                 sent := sent w ++ [post_request env path payload] |})).
Proof.
  intros Hok. split; intros Hnet.
  - by rewrite get_run, Hnet, Hok.
  - by rewrite post_run, Hnet, Hok.
Qed.

Lemma wrapper_2xx_yields_json_witness :
  fst (get None net_201 "/campaigns" world0) = inr (VObj [("id", VStr "w1")]) /\
  fst (post None net_204 "/events" (event_payload "email_sent") world0) =
    inl "Unexpected end of JSON input".
Proof.
  split.
  - rewrite (proj1 (wrapper_2xx_yields_json None net_201 "/campaigns" VNull
                      world0 response_201 eq_refl) eq_refl).
    reflexivity.
  - rewrite (proj2 (wrapper_2xx_yields_json None net_204 "/events"
                      (event_payload "email_sent") world0 response_204 eq_refl)
               eq_refl).
    reflexivity.
Defined.

(** X7: the base URL is never the empty string, whatever the environment
    holds, and the URL of every request of [get] and [post] starts with
    it. *)
Theorem baseUrl_never_empty (env : option string) :
  baseUrl env <> "" /\
  (forall path, startsWith (url (get_request env path)) (baseUrl env) = true) /\
  (forall path payload,
     startsWith (url (post_request env path payload)) (baseUrl env) = true).
Proof.
  split; [by destruct env as [[|a s]|]|].
  split; intros; unfold get_request, post_request; simpl; apply startsWith_app.
Qed.

(** ** The handlers, continued *)

(** X8: no handler lets an exception escape: whatever the backend does
    (rejected fetch, any status, unreadable body, a JSON [null]), each of
    the six returns normally. *)
Theorem handlers_never_throw (env : option string) (net : Network) :
  never_throws (loadCampaigns env net) /\
  never_throws (submitWorkspace env net) /\
  never_throws (submitProspect env net) /\
  never_throws (generateEmail env net) /\
  never_throws (submitCampaign env net) /\
  (forall type, never_throws (trackEvent env net type)).
Proof.
  split; [|split; [|split; [|split; [|split; [|intros type]]]]]; intros w.
  - by rewrite loadCampaigns_runs.
  - by rewrite submitWorkspace_runs.
  - by rewrite submitProspect_runs.
  - by rewrite generateEmail_runs.
  - by rewrite submitCampaign_runs.
  - by rewrite trackEvent_runs.
Qed.

(** X9: nothing is retried: [loadCampaigns], [submitWorkspace],
    [submitProspect], [generateEmail] and [trackEvent] send exactly one
    request each, built from the state at the time of the call, whatever
    its outcome. *)
Theorem handlers_send_one_request
    (env : option string) (net : Network) (w : World) (type : string) :
  sent (snd (loadCampaigns env net w)) =
    sent w ++ [get_request env "/campaigns"] /\
  sent (snd (submitWorkspace env net w)) =
    sent w ++ [post_request env "/workspaces" (Workspace_value (ws (app w)))] /\
  sent (snd (submitProspect env net w)) =
    sent w ++ [post_request env "/prospects" (Prospect_value (prospect (app w)))] /\
  sent (snd (generateEmail env net w)) =
    sent w ++ [post_request env "/generate" (GenForm_value (gen (app w)))] /\
  sent (snd (trackEvent env net type w)) =
    sent w ++ [post_request env "/events" (event_payload type)].
Proof.
  rewrite loadCampaigns_runs, submitWorkspace_runs, submitProspect_runs,
    generateEmail_runs, trackEvent_runs.
  repeat split.
Qed.

(** X10: [submitCampaign] posts the campaign being edited and reloads the
    list only after that POST went through: when the POST delivered a
    value with a readable [id] that converts to a string, the GET of
    [/campaigns] follows it; when the POST threw, or the [id] does not
    convert, no second request is sent. *)
Theorem submitCampaign_reloads_after_success
    (env : option string) (net : Network) (w : World) :
  let req := post_request env "/campaigns" (Campaign_value (campaign (app w))) in
  let outcome :=
    post_outcome env net "/campaigns" (Campaign_value (campaign (app w))) in
  (forall r id shown,
     outcome = inr r -> Get r "id" = Some id -> ToString id = Some shown ->
     sent (snd (submitCampaign env net w)) =
       sent w ++ [req; get_request env "/campaigns"]) /\
  (forall r id,
     outcome = inr r -> Get r "id" = Some id -> ToString id = None ->
     sent (snd (submitCampaign env net w)) = sent w ++ [req]) /\
  (forall message,
     outcome = inl message ->
     sent (snd (submitCampaign env net w)) = sent w ++ [req]).
Proof.
  simpl. rewrite submitCampaign_runs. split; [|split].
  - intros r id shown -> -> ->. rewrite loadCampaigns_runs. simpl.
    by rewrite <- app_assoc.
  - by intros r id -> -> ->.
  - by intros message ->.
Qed.

Lemma submitCampaign_reloads_after_success_witness :
  sent (snd (submitCampaign None net_created_then_list world0)) =
    [ post_request None "/campaigns" (Campaign_value campaign_initial);
      get_request None "/campaigns" ] /\
  sent (snd (submitCampaign None net_201_object_id world0)) =
    [ post_request None "/campaigns" (Campaign_value campaign_initial) ] /\
  sent (snd (submitCampaign None net_500 world0)) =
    [ post_request None "/campaigns" (Campaign_value campaign_initial) ].
Proof.
  split; [|split].
  - apply (proj1 (submitCampaign_reloads_after_success None net_created_then_list
                    world0) (VObj [("id", VStr "w1")]) (VStr "w1") "w1");
      reflexivity.
  - apply (proj1 (proj2 (submitCampaign_reloads_after_success None
                           net_201_object_id world0))
             (VObj [("id", VObj [("toString", VNum 1)])])
             (VObj [("toString", VNum 1)]));
      reflexivity.
  - apply (proj2 (proj2 (submitCampaign_reloads_after_success None net_500 world0))
             "POST /campaigns failed: 500 boom").
    reflexivity.
Defined.

(** X11: no handler clears or alters a form or switches tab: the selected
    tab and the contents of the workspace, prospect and generator forms
    are the same after each of the six handlers, in every outcome. *)
Theorem handlers_keep_forms (env : option string) (net : Network) :
  keeps_forms (loadCampaigns env net) /\
  keeps_forms (submitWorkspace env net) /\
  keeps_forms (submitProspect env net) /\
  keeps_forms (generateEmail env net) /\
  keeps_forms (submitCampaign env net) /\
  (forall type, keeps_forms (trackEvent env net type)).
Proof.
  split; [|split; [|split; [|split; [|split; [|intros type]]]]];
    intros w; simpl.
  - rewrite loadCampaigns_runs. simpl. frame_cases.
  - rewrite submitWorkspace_runs. simpl. frame_cases.
  - rewrite submitProspect_runs. simpl. frame_cases.
  - rewrite generateEmail_runs. simpl. frame_cases.
  - rewrite submitCampaign_runs. simpl. frame_cases.
    rewrite loadCampaigns_runs. simpl. frame_cases.
  - rewrite trackEvent_runs. simpl. frame_cases.
Qed.

(** X12: the campaign being edited survives every request: [loadCampaigns],
    [submitProspect], [generateEmail], [trackEvent] and [submitCampaign]
    (also when it succeeds) leave it as it is, and [submitWorkspace] keeps
    its name and its sequence. *)
Theorem handlers_keep_campaign (env : option string) (net : Network) :
  keeps_campaign (loadCampaigns env net) /\
  keeps_campaign (submitProspect env net) /\
  keeps_campaign (generateEmail env net) /\
  keeps_campaign (submitCampaign env net) /\
  (forall type, keeps_campaign (trackEvent env net type)) /\
  (forall w,
     name (campaign (app (snd (submitWorkspace env net w)))) =
       name (campaign (app w)) /\
     sequence (campaign (app (snd (submitWorkspace env net w)))) =
       sequence (campaign (app w))).
Proof.
  split; [|split; [|split; [|split; [|split; [intros type|]]]]];
    intros w; simpl.
  - rewrite loadCampaigns_runs. simpl. frame_cases.
  - rewrite submitProspect_runs. simpl. frame_cases.
  - rewrite generateEmail_runs. simpl. frame_cases.
  - rewrite submitCampaign_runs. simpl. frame_cases.
    rewrite loadCampaigns_runs. simpl. frame_cases.
  - rewrite trackEvent_runs. simpl. frame_cases.
  - rewrite submitWorkspace_runs. simpl. frame_cases.
Qed.

(** X13: the loading flags always come back down: [loadCampaigns] ends
    with [loadingCampaigns] false and [generateEmail] with [loadingGen]
    false in every outcome, and [submitCampaign] does not leave
    [loadingCampaigns] raised when it was not. *)
Theorem loading_flags_reset (env : option string) (net : Network) (w : World) :
  loadingCampaigns (app (snd (loadCampaigns env net w))) = false /\
  loadingGen (app (snd (generateEmail env net w))) = false /\
  (loadingCampaigns (app w) = false ->
   loadingCampaigns (app (snd (submitCampaign env net w))) = false).
Proof.
  rewrite loadCampaigns_runs, generateEmail_runs, submitCampaign_runs.
  repeat split. simpl. intros Hidle. frame_cases.
  by rewrite loadCampaigns_runs.
Qed.

Lemma loading_flags_reset_witness :
  loadingCampaigns (app (snd (submitCampaign None net_created_then_list world0)))
  = false.
Proof.
  apply (proj2 (proj2 (loading_flags_reset None net_created_then_list world0))).
  reflexivity.
Defined.

(** X14: [loadCampaigns] stores what the backend sent, unchecked: when the
    GET delivers a JSON value, of any shape, that value becomes the
    campaign list and the status message is not touched; when the GET
    throws, the list shown stays and the status message is the error's
    message. *)
Theorem loadCampaigns_stores_or_reports
    (env : option string) (net : Network) (w : World) :
  let st' := app (snd (loadCampaigns env net w)) in
  (forall items,
     get_outcome env net "/campaigns" = inr items ->
     campaigns st' = items /\ status st' = status (app w)) /\
  (forall message,
     get_outcome env net "/campaigns" = inl message ->
     campaigns st' = campaigns (app w) /\ status st' = message).
Proof.
  simpl. rewrite loadCampaigns_runs. simpl.
  split; intros ? ->; by split.
Qed.

Lemma loadCampaigns_stores_or_reports_witness :
  campaigns (app (snd (loadCampaigns None net_201 world0))) =
    VObj [("id", VStr "w1")] /\
  status (app (snd (loadCampaigns None net_down world0))) = "Failed to fetch".
Proof.
  split.
  - apply (proj1 (loadCampaigns_stores_or_reports None net_201 world0)
             (VObj [("id", VStr "w1")]) eq_refl).
  - apply (proj2 (loadCampaigns_stores_or_reports None net_down world0)
             "Failed to fetch" eq_refl).
Defined.

(** X15: when the POST to [/generate] delivers a value, [generateEmail]
    makes that value the preview, sets the status to [Generated!], ends
    with the loading flag down and changes nothing else. *)
Theorem generateEmail_success_sets_preview
    (env : option string) (net : Network) (w : World) (r : value) :
  post_outcome env net "/generate" (GenForm_value (gen (app w))) = inr r ->
  app (snd (generateEmail env net w)) =
    with_loadingGen false (with_status "Generated!" (with_preview r (app w))).
Proof. intros H. rewrite generateEmail_runs. simpl. by rewrite H. Qed.

Lemma generateEmail_success_sets_preview_witness :
  preview (app (snd (generateEmail None net_201 world0))) =
    VObj [("id", VStr "w1")] /\
  status (app (snd (generateEmail None net_201 world0))) = "Generated!".
Proof.
  rewrite (generateEmail_success_sets_preview None net_201 world0
             (VObj [("id", VStr "w1")]) eq_refl).
  split; reflexivity.
Defined.

(** X16: a workspace answer without an [id] is still taken as a success:
    when the POST to [/workspaces] delivers a JSON object that has no [id]
    field, the campaign's workspace reference becomes [undefined] and the
    status reads [Workspace created: undefined]. *)
Theorem submitWorkspace_without_id
    (env : option string) (net : Network) (w : World)
    (fields : list (string * value)) :
  post_outcome env net "/workspaces" (Workspace_value (ws (app w))) =
    inr (VObj fields) ->
  assoc "id" fields = None ->
  workspace_id (campaign (app (snd (submitWorkspace env net w)))) = VUndefined /\
  status (app (snd (submitWorkspace env net w))) = "Workspace created: undefined".
Proof.
  intros Hout Hid. rewrite submitWorkspace_runs. simpl.
  rewrite Hout. simpl. rewrite Hid. by split.
Qed.

Lemma submitWorkspace_without_id_witness :
  workspace_id (campaign (app (snd (submitWorkspace None net_200_empty_object world0))))
    = VUndefined /\
  status (app (snd (submitWorkspace None net_200_empty_object world0))) =
    "Workspace created: undefined".
Proof.
  apply (submitWorkspace_without_id None net_200_empty_object world0 []);
    reflexivity.
Defined.

(** X17: an error of the request is shown word for word and is all that
    changes: when the POST of [submitWorkspace], [submitProspect],
    [submitCampaign] or [trackEvent] throws (rejected fetch, status outside
    200..299, or a body that does not parse), the state afterwards is the
    state before with the status set to exactly the error's message. *)
Theorem request_error_shown_verbatim
    (env : option string) (net : Network) (w : World) (message : string) :
  (post_outcome env net "/workspaces" (Workspace_value (ws (app w))) = inl message ->
   app (snd (submitWorkspace env net w)) = with_status message (app w)) /\
  (post_outcome env net "/prospects" (Prospect_value (prospect (app w))) = inl message ->
   app (snd (submitProspect env net w)) = with_status message (app w)) /\
  (post_outcome env net "/campaigns" (Campaign_value (campaign (app w))) = inl message ->
   app (snd (submitCampaign env net w)) = with_status message (app w)) /\
  (forall type,
     post_outcome env net "/events" (event_payload type) = inl message ->
     app (snd (trackEvent env net type w)) = with_status message (app w)).
Proof.
  rewrite submitWorkspace_runs, submitProspect_runs, submitCampaign_runs.
  simpl. repeat split.
  - by intros ->.
  - by intros ->.
  - by intros ->.
  - intros type H. rewrite trackEvent_runs. simpl. by rewrite H.
Qed.

Lemma request_error_shown_verbatim_witness :
  app (snd (submitWorkspace None net_down world0)) =
    with_status "Failed to fetch" App_initial /\
  app (snd (trackEvent None net_204 "email_sent" world0)) =
    with_status "Unexpected end of JSON input" App_initial.
Proof.
  split.
  - apply (proj1 (request_error_shown_verbatim None net_down world0
                    "Failed to fetch")).
    reflexivity.
  - apply (proj2 (proj2 (proj2 (request_error_shown_verbatim None net_204 world0
                                  "Unexpected end of JSON input")))).
    reflexivity.
Defined.

(** X18: success notices: when its POST delivers a value, [trackEvent]
    sets the status to [Tracked ] followed by the event type, and
    [submitProspect], when the value has a readable [id] that converts to
    a string, to [Prospect added: ] followed by that string; nothing else
    changes. *)
Theorem success_notices
    (env : option string) (net : Network) (w : World) :
  (forall type v,
     post_outcome env net "/events" (event_payload type) = inr v ->
     app (snd (trackEvent env net type w)) =
       with_status ("Tracked " +:+ type) (app w)) /\
  (forall r id shown,
     post_outcome env net "/prospects" (Prospect_value (prospect (app w))) = inr r ->
     Get r "id" = Some id ->
     ToString id = Some shown ->
     app (snd (submitProspect env net w)) =
       with_status ("Prospect added: " +:+ shown) (app w)).
Proof.
  split.
  - intros type v H. rewrite trackEvent_runs. simpl. by rewrite H.
  - intros r id shown H Hid Hshown. rewrite submitProspect_runs. simpl.
    by rewrite H, Hid, Hshown.
Qed.

Lemma success_notices_witness :
  status (app (snd (trackEvent None net_201 "email_sent" world0))) =
    "Tracked email_sent" /\
  status (app (snd (submitProspect None net_201 world0))) =
    "Prospect added: w1".
Proof.
  split.
  - rewrite (proj1 (success_notices None net_201 world0) "email_sent"
               (VObj [("id", VStr "w1")]) eq_refl).
    reflexivity.
  - rewrite (proj2 (success_notices None net_201 world0)
               (VObj [("id", VStr "w1")]) (VStr "w1") "w1"
               eq_refl eq_refl eq_refl).
    reflexivity.
Defined.

(** X19: after a campaign was created and its [id] converted to a string
    for the notice, the outcome of the reload decides what is shown: when
    the GET delivers a value it becomes the campaign list and the status
    stays [Campaign created: ] followed by that string; when the GET
    throws, its error message replaces the notice and the list shown
    stays. *)
Theorem submitCampaign_then_reload
    (env : option string) (net : Network) (w : World) (r id : value)
    (shown : string) :
  post_outcome env net "/campaigns" (Campaign_value (campaign (app w))) = inr r ->
  Get r "id" = Some id ->
  ToString id = Some shown ->
  let st' := app (snd (submitCampaign env net w)) in
  (forall items,
     get_outcome env net "/campaigns" = inr items ->
     campaigns st' = items /\
     status st' = "Campaign created: " +:+ shown) /\
  (forall message,
     get_outcome env net "/campaigns" = inl message ->
     campaigns st' = campaigns (app w) /\ status st' = message).
Proof.
  intros Hpost Hid Hshown. simpl.
  rewrite submitCampaign_runs. simpl. rewrite Hpost, Hid, Hshown.
  rewrite loadCampaigns_runs. simpl.
  split; intros ? ->; by split.
Qed.

Lemma submitCampaign_then_reload_witness :
  campaigns (app (snd (submitCampaign None net_created_then_list world0))) =
    VArr [Campaign_value campaign_initial] /\
  status (app (snd (submitCampaign None net_created_then_list world0))) =
    "Campaign created: w1" /\
  status (app (snd (submitCampaign None net_created_then_503 world0))) =
    "GET /campaigns failed: 503".
Proof.
  split; [|split].
  - apply (proj1 (submitCampaign_then_reload None net_created_then_list world0
                    (VObj [("id", VStr "w1")]) (VStr "w1") "w1"
                    eq_refl eq_refl eq_refl)
             (VArr [Campaign_value campaign_initial]) eq_refl).
  - apply (proj1 (submitCampaign_then_reload None net_created_then_list world0
                    (VObj [("id", VStr "w1")]) (VStr "w1") "w1"
                    eq_refl eq_refl eq_refl)
             (VArr [Campaign_value campaign_initial]) eq_refl).
  - apply (proj2 (submitCampaign_then_reload None net_created_then_503 world0
                    (VObj [("id", VStr "w1")]) (VStr "w1") "w1"
                    eq_refl eq_refl eq_refl)
             "GET /campaigns failed: 503" eq_refl).
Defined.

(** ** The campaign list and the navigation *)

(** X20: the step count of a listed campaign: for a campaign as this page
    posts it, the count shown is the number of its steps; for an entry
    that is an object without a [sequence], or whose [sequence] is [null]
    or an empty array, it is 0 and nothing throws. *)
Theorem steps_shown_counts_steps :
  (forall c : Campaign,
     steps_shown (Campaign_value c) =
       Some (VNum (Z.of_nat (length (sequence c))))) /\
  (forall fields,
     assoc "sequence" fields = None \/
     assoc "sequence" fields = Some VNull \/
     assoc "sequence" fields = Some (VArr []) ->
     steps_shown (VObj fields) = Some (VNum 0)).
Proof.
  split.
  - intros c. unfold steps_shown. simpl. rewrite length_map.
    by destruct (sequence c).
  - intros fields H. unfold steps_shown. simpl.
    by destruct H as [->|[->| ->]].
Qed.

Lemma steps_shown_counts_steps_witness :
  steps_shown (Campaign_value (addStep_updater campaign_initial)) =
    Some (VNum 2) /\
  steps_shown (VObj [("name", VStr "June Outreach")]) = Some (VNum 0).
Proof.
  split.
  - apply (proj1 steps_shown_counts_steps).
  - apply (proj2 steps_shown_counts_steps). by left.
Defined.

(** X21: every button of the navigation bar leads to one panel: after
    [setTab] with the id of any entry of [tabs], exactly one panel of the
    page is rendered, the one guarded by that id; nothing else of the
    state changes. *)
Theorem every_tab_shows_its_panel (id label : string) (w : World) :
  (id, label) ∈ tabs ->
  fst (setTab id w) = inr tt /\
  visible_panels (app (snd (setTab id w))) = [id] /\
  app (snd (setTab id w)) = with_tab id (app w).
Proof.
  intros Hin. split; [reflexivity|]. split; [|reflexivity].
  unfold tabs in Hin.
  repeat (apply elem_of_cons in Hin as [[= -> ->]|Hin]; [reflexivity|]).
  by apply elem_of_nil in Hin.
Qed.

Lemma every_tab_shows_its_panel_witness :
  visible_panels (app (snd (setTab "campaigns" world0))) = ["campaigns"].
Proof.
  apply (every_tab_shows_its_panel "campaigns" "Campaigns" world0).
  do 2 apply list_elem_of_further. apply list_elem_of_here.
Defined.

(** X22: a [null] in the list breaks the panel: when the GET of
    [/campaigns] is answered in 200..299 with an array that has a [null]
    entry, [loadCampaigns] stores the array all the same, leaves the
    status untouched, and the list panel then throws when rendered. *)
Theorem campaign_rows_throw_on_null_entry
    (env : option string) (net : Network) (w : World) (entries : list value) :
  get_outcome env net "/campaigns" = inr (VArr entries) ->
  VNull ∈ entries ->
  let st' := app (snd (loadCampaigns env net w)) in
  campaigns st' = VArr entries /\
  status st' = status (app w) /\
  campaign_rows (campaigns st') = None.
Proof.
  intros Hget Hin. simpl. rewrite loadCampaigns_runs. simpl. rewrite Hget. simpl.
  split; [done|]. split; [done|].
  apply mapM_None, Exists_exists. exists VNull. by split.
Qed.

Lemma campaign_rows_throw_on_null_entry_witness :
  campaign_rows
    (campaigns (app (snd (loadCampaigns None net_200_list_with_null world0)))) =
    None.
Proof.
  apply (campaign_rows_throw_on_null_entry None net_200_list_with_null world0
           [Campaign_value campaign_initial; VNull] eq_refl).
  apply list_elem_of_further, list_elem_of_here.
Defined.

(** X23: nothing checks the shape of the campaign list: when the GET of
    [/campaigns] is answered in 200..299 with a JSON value that is not an
    array, [loadCampaigns] stores it all the same, leaves the status
    untouched, and the list panel then throws when rendered. *)
Theorem loadCampaigns_accepts_what_the_list_cannot_show
    (env : option string) (net : Network) (w : World) (v : value) :
  get_outcome env net "/campaigns" = inr v ->
  (forall entries, v <> VArr entries) ->
  let st' := app (snd (loadCampaigns env net w)) in
  campaigns st' = v /\
  status st' = status (app w) /\
  campaign_rows (campaigns st') = None.
Proof.
  intros Hget Hv. simpl. rewrite loadCampaigns_runs. simpl. rewrite Hget. simpl.
  split; [done|]. split; [done|].
  destruct v; try done. by destruct (Hv elems).
Qed.

Lemma loadCampaigns_accepts_what_the_list_cannot_show_witness :
  campaign_rows (campaigns (app (snd (loadCampaigns None net_201 world0)))) = None.
Proof.
  apply (loadCampaigns_accepts_what_the_list_cannot_show None net_201 world0
           (VObj [("id", VStr "w1")]) eq_refl).
  discriminate.
Defined.
